(** * MnasNet: topology generator and inverted residual block

    A shallow embedding of [MnasNet.py]: the primitive block builders
    [Conv_3x3], [Conv_1x1], [SepConv_3x3], the class [InvertedResidual]
    and the class [MnasNet], followed by the properties of the generated
    topology.

    Python integers are [Z]; Python floats are binary64 values, computed
    with the operations of [SpecFloat].  An exception is the left summand
    of a result.

    The tensor runtime (torch) and the [dropblock] package are outside the
    file that is embedded.  Their modules are represented by the arguments
    they are constructed with, and their behaviour on tensors by an
    interface, [Runtime], that the forward functions are written against.
    The checks that the constructors of these modules make on their
    arguments are not part of the embedding: where a constructor of the
    embedding returns an object, the program returns that object or raises
    inside one of these constructors.  The properties of constructed
    objects are therefore stated for constructions that return, and the
    exceptions proved are those the file raises itself before any such
    constructor is reached. *)

From Stdlib Require Import String ZArith List Bool Lia SpecFloat.
Import ListNotations.
Open Scope Z_scope.

(** ** Python values: exceptions, integers and binary64 floats *)

Module Py.

Inductive exn : Type :=
| AssertionError
| ValueError
| OverflowError
| AttributeError
| RuntimeError.

(** A computation that may raise: [inl e] is the exception raised. *)
Definition result (A : Type) : Type := (exn + A)%type.

Definition ret {A} (a : A) : result A := inr a.
Definition raise {A} (e : exn) : result A := inl e.
Definition bind {A B} (m : result A) (k : A -> result B) : result B :=
  match m with
  | inl e => inl e
  | inr a => k a
  end.

(** [float] is IEEE binary64. *)
Definition prec : Z := 53.
Definition emax : Z := 1024.

Definition float : Type := spec_float.

(** The numbers the constructors receive: [int] or [float]. *)
Inductive num : Type :=
| PInt (z : Z)
| PFloat (f : float).

(** A float literal [m * 2^e]. *)
Definition lit (m e : Z) : float := binary_normalize prec emax m e false.

Definition f0 : float := S754_zero false.
Definition f1 : float := lit 1 0.

(** Conversion of an [int] operand in mixed arithmetic: the nearest
    float, [OverflowError] when the integer is too large. *)
Definition float_of_int (z : Z) : result float :=
  match binary_normalize prec emax z 0 false with
  | S754_infinity _ => raise OverflowError
  | f => ret f
  end.

(** [a * b] for an [int] [a]. *)
Definition mul_int (a : Z) (b : num) : result num :=
  match b with
  | PInt z => ret (PInt (a * z))
  | PFloat f =>
      match float_of_int a with
      | inl e => inl e
      | inr fa => ret (PFloat (SFmul prec emax fa f))
      end
  end.

(** [int(x)] on a float: the integral part, towards zero. *)
Definition int_of_float (f : float) : result Z :=
  match f with
  | S754_zero _ => ret 0
  | S754_infinity _ => raise OverflowError
  | S754_nan => raise ValueError
  | S754_finite s m e => ret (cond_Zopp s (Z.shiftl (Zpos m) e))
  end.

Definition int (x : num) : result Z :=
  match x with
  | PInt z => ret z
  | PFloat f => int_of_float f
  end.

(** [x > 1.0]. *)
Definition gt_one (x : num) : bool :=
  match x with
  | PInt z => 1 <? z
  | PFloat f => SFltb f1 f
  end.

(** [round(x)] on a float: nearest integer, ties to the even one. *)
Definition round_float (f : float) : result Z :=
  match f with
  | S754_zero _ => ret 0
  | S754_infinity _ => raise OverflowError
  | S754_nan => raise ValueError
  | S754_finite s m e =>
      let q := Z.shiftl (Zpos m) e in
      let r := 2 * (Zpos m - Z.shiftl q (- e)) in
      let h := Z.shiftl 1 (- e) in
      ret (cond_Zopp s
             (if e >=? 0 then q
              else if r <? h then q
              else if h <? r then q + 1
              else if Z.even q then q else q + 1))
  end.

Definition round (x : num) : result Z :=
  match x with
  | PInt z => ret z
  | PFloat f => round_float f
  end.

(** Rounding with ties away from zero, the other usual round-half rule. *)
Definition round_half_away_float (f : float) : result Z :=
  match f with
  | S754_zero _ => ret 0
  | S754_infinity _ => raise OverflowError
  | S754_nan => raise ValueError
  | S754_finite s m e =>
      let q := Z.shiftl (Zpos m) e in
      let r := 2 * (Zpos m - Z.shiftl q (- e)) in
      let h := Z.shiftl 1 (- e) in
      ret (cond_Zopp s
             (if e >=? 0 then q else if r <? h then q else q + 1))
  end.

Definition round_half_away (x : num) : result Z :=
  match x with
  | PInt z => ret z
  | PFloat f => round_half_away_float f
  end.

End Py.

Notation "x <- m ;; k" := (Py.bind m (fun x => k))
  (at level 61, m at next level, right associativity).


(** ** Modules of the tensor runtime and of [dropblock]

    A module is recorded with the arguments of its constructor, in the
    order of the constructor's signature. *)

Record DropBlock2D : Type := {
  drop_prob : Py.num;
  block_size : Z
}.

Record DropBlockScheduled : Type := {
  dropblock : DropBlock2D;
  start_value : Py.num;
  stop_value : Py.num;
  nr_steps : Py.num
}.

(** An activation is a class and the keyword arguments it is called with. *)
Definition ActClass : Type := string.
Definition ActParams : Type := list (string * bool).

Inductive Layer : Type :=
| Conv2d (in_channels out_channels kernel_size stride padding groups : Z)
         (bias : bool)
| BatchNorm2d (num_features : Z)
| Activation (activation : ActClass) (act_params : ActParams)
| DropBlock (d : DropBlockScheduled)
| AdaptiveAvgPool2d (output_size : Z)
| Dropout (p : Py.float)
| Linear (in_features out_features : Z).

(** [nn.Sequential]: the layers in order. *)
Definition Sequential : Type := list Layer.

Definition ReLU6 : ActClass := "ReLU6"%string.
Definition inplace : ActParams := [("inplace"%string, true)].

(** ** Primitive block builders *)

Definition Conv_3x3 (inp oup stride : Z) (activation : ActClass)
    (act_params : ActParams) : Sequential :=
  [ Conv2d inp oup 3 stride 1 1 false;
    BatchNorm2d oup;
    Activation activation act_params ].

Definition Conv_1x1 (inp oup : Z) (activation : ActClass)
    (act_params : ActParams) : Sequential :=
  [ Conv2d inp oup 1 1 0 1 false;
    BatchNorm2d oup;
    Activation activation act_params ].

Definition SepConv_3x3 (inp oup : Z) (activation : ActClass)
    (act_params : ActParams) : Sequential :=
  [ (* dw *)
    Conv2d inp inp 3 1 1 inp false;
    BatchNorm2d inp;
    Activation activation act_params;
    (* pw-linear *)
    Conv2d inp oup 1 1 0 1 false;
    BatchNorm2d oup ].

(** ** The interface of the tensor runtime

    [T] is the type of tensors and [W] the state the runtime keeps between
    calls (buffers of its modules, the random generator, whatever a
    scheduled drop block remembers).  [call training l x] applies the
    module [l], in training or evaluation mode, to [x]. *)

Class Runtime (T W : Type) : Type := {
  call : bool -> Layer -> T -> W -> Py.result (T * W);
  add : T -> T -> Py.result T;
  view : list Z -> T -> Py.result T
}.

(** Computations over the runtime state that may raise. *)
Definition M (W A : Type) : Type := W -> Py.result (A * W).

Definition mret {W A} (a : A) : M W A := fun w => inr (a, w).
Definition mraise {W A} (e : Py.exn) : M W A := fun _ => inl e.
Definition mbind {W A B} (m : M W A) (k : A -> M W B) : M W B :=
  fun w => match m w with
           | inl e => inl e
           | inr (a, w') => k a w'
           end.
Definition lift {W A} (r : Py.result A) : M W A :=
  fun w => match r with
           | inl e => inl e
           | inr a => inr (a, w)
           end.

Notation "x <~ m ;; k" := (mbind m (fun x => k))
  (at level 61, m at next level, right associativity).

Section Forward.
Context {T W : Type} {R : Runtime T W}.

(** Calling an [nn.Sequential]: its layers from left to right. *)
Fixpoint sequential_forward (training : bool) (l : Sequential) (x : T)
    : M W T :=
  match l with
  | [] => mret x
  | m :: l' => y <~ call training m x ;; sequential_forward training l' y
  end.
End Forward.

(** ** class InvertedResidual *)

Module InvertedResidual.

Record t : Type := {
  stride : Z;
  use_res_connect : bool;
  conv : Sequential;
  skip_drop : option DropBlockScheduled
}.

Definition init (inp oup stride expand_ratio kernel : Z)
    (drop_prob num_steps : Py.num)
    (activation : ActClass) (act_params : ActParams) : Py.result t :=
  if negb (existsb (Z.eqb stride) [1; 2]) then Py.raise Py.AssertionError
  else
    let use_res_connect := (stride =? 1) && (inp =? oup) in
    let conv :=
      [ (* pw *)
        Conv2d inp (inp * expand_ratio) 1 1 0 1 false;
        BatchNorm2d (inp * expand_ratio);
        DropBlock
          {| dropblock := {| drop_prob := drop_prob; block_size := 7 |};
             start_value := Py.PFloat Py.f0;
             stop_value := drop_prob;
             nr_steps := num_steps |};
        Activation activation act_params;
        (* dw *)
        Conv2d (inp * expand_ratio) (inp * expand_ratio) kernel stride
               (kernel / 2) (inp * expand_ratio) false;
        BatchNorm2d (inp * expand_ratio);
        DropBlock
          {| dropblock := {| drop_prob := drop_prob; block_size := 7 |};
             start_value := Py.PFloat Py.f0;
             stop_value := drop_prob;
             nr_steps := num_steps |};
        Activation activation act_params;
        (* pw-linear *)
        Conv2d (inp * expand_ratio) oup 1 1 0 1 false;
        BatchNorm2d oup;
        DropBlock
          {| dropblock := {| drop_prob := drop_prob; block_size := 7 |};
             start_value := Py.PFloat Py.f0;
             stop_value := drop_prob;
             nr_steps := num_steps |} ] in
    let skip_drop :=
      if use_res_connect then
        Some
          {| dropblock := {| drop_prob := drop_prob; block_size := 7 |};
             start_value := Py.PFloat Py.f0;
             stop_value := drop_prob;
             nr_steps := num_steps |}
      else None in
    Py.ret {| stride := stride;
              use_res_connect := use_res_connect;
              conv := conv;
              skip_drop := skip_drop |}.

Section Forward.
Context {T W : Type} {R : Runtime T W}.

(** [self.skip_drop] is looked up before its argument is computed; the
    attribute exists only when [__init__] has set it. *)
Definition forward (training : bool) (self : t) (x : T) : M W T :=
  if use_res_connect self then
    match skip_drop self with
    | None => mraise Py.AttributeError
    | Some d =>
        y <~ sequential_forward training (conv self) x ;;
        s <~ lift (add x y) ;;
        call training (DropBlock d) s
    end
  else sequential_forward training (conv self) x.
End Forward.

End InvertedResidual.

(** ** class MnasNet *)

(** A child of [self.features]: one of the builders' [nn.Sequential], an
    [InvertedResidual], or a single layer. *)
Inductive Child : Type :=
| Seq (l : Sequential)
| Block (b : InvertedResidual.t)
| Single (l : Layer).

(** A row [t, c, n, s, k, dp] of the stage table. *)
Definition StageSpec : Type := (Z * Z * Z * Z * Z * Py.num)%type.

(** [for a in l: s = body(s, a)], stopping at the first exception. *)
Fixpoint for_each {A S : Type} (l : list A) (body : S -> A -> Py.result S)
    (s : S) : Py.result S :=
  match l with
  | [] => Py.ret s
  | a :: l' => s' <- body s a ;; for_each l' body s'
  end.

(** [range(n)] *)
Definition range (n : Z) : list Z := map Z.of_nat (seq 0 (Z.to_nat n)).

Module MnasNet.

Record t : Type := {
  activation : ActClass;
  act_params : ActParams;
  interverted_residual_setting : list StageSpec;
  num_steps : Py.num;
  last_channel : Z;
  features : list Child;
  classifier : Sequential
}.

(** The body of [for i in range(n)]: one block appended, then
    [input_channel = output_channel]. *)
Definition repeat_body (output_channel s t k : Z) (dp num_steps : Py.num)
    (activation : ActClass) (act_params : ActParams)
    (st : list Child * Z) (i : Z) : Py.result (list Child * Z) :=
  let '(features, input_channel) := st in
  b <- (if i =? 0 then
          InvertedResidual.init input_channel output_channel s t k dp
            num_steps activation act_params
        else
          InvertedResidual.init input_channel output_channel 1 t k dp
            num_steps activation act_params) ;;
  Py.ret (features ++ [Block b], output_channel).

(** The body of [for t, c, n, s, k, dp in self.interverted_residual_setting]. *)
Definition stage_body (width_mult num_steps : Py.num)
    (activation : ActClass) (act_params : ActParams)
    (st : list Child * Z) (row : StageSpec) : Py.result (list Child * Z) :=
  let '(t, c, n, s, k, dp) := row in
  output_channel <- (p <- Py.mul_int c width_mult ;; Py.int p) ;;
  for_each (range n)
    (repeat_body output_channel s t k dp num_steps activation act_params)
    st.

(** Building the inverted residual blocks: the loop over the table, from
    the features and the [input_channel] it starts with. *)
Definition build_blocks (setting : list StageSpec)
    (width_mult num_steps : Py.num)
    (activation : ActClass) (act_params : ActParams)
    (st : list Child * Z) : Py.result (list Child * Z) :=
  for_each setting (stage_body width_mult num_steps activation act_params)
    st.

Definition init (n_class input_size : Z)
    (width_mult drop_prob num_steps : Py.num)
    (activation : ActClass) (act_params : ActParams) : Py.result t :=
  (* setting of inverted residual blocks *)
  let interverted_residual_setting : list StageSpec :=
    [ (* t, c, n, s, k, dp *)
      (3, 24, 3, 2, 3, Py.PInt 0);
      (3, 40, 3, 2, 5, Py.PInt 0);
      (6, 80, 3, 2, 5, Py.PInt 0);
      (6, 96, 2, 1, 3, drop_prob);
      (6, 192, 4, 2, 5, drop_prob);
      (6, 320, 1, 1, 3, drop_prob) ] in
  if negb (input_size mod 32 =? 0) then Py.raise Py.AssertionError
  else
    input_channel <- (p <- Py.mul_int 32 width_mult ;; Py.int p) ;;
    last_channel <-
      (if Py.gt_one width_mult
       then p <- Py.mul_int 1280 width_mult ;; Py.int p
       else Py.ret 1280) ;;
    (* building first two layer *)
    let features :=
      [ Seq (Conv_3x3 3 input_channel 2 activation act_params);
        Seq (SepConv_3x3 input_channel 16 activation act_params) ] in
    let input_channel := 16 in
    (* building inverted residual blocks (MBConv) *)
    st <- build_blocks interverted_residual_setting width_mult num_steps
            activation act_params (features, input_channel) ;;
    let '(features, input_channel) := st in
    (* building last several layers *)
    let features :=
      features
        ++ [Seq (Conv_1x1 input_channel last_channel activation act_params)] in
    let features := features ++ [Single (AdaptiveAvgPool2d 1)] in
    (* building classifier *)
    let classifier :=
      [ Dropout Py.f0;
        Linear last_channel n_class ] in
    Py.ret {| activation := activation;
              act_params := act_params;
              interverted_residual_setting := interverted_residual_setting;
              num_steps := num_steps;
              last_channel := last_channel;
              features := features;
              classifier := classifier |}.

Section Forward.
Context {T W : Type} {R : Runtime T W}.

Definition child_forward (training : bool) (c : Child) (x : T) : M W T :=
  match c with
  | Seq l => sequential_forward training l x
  | Block b => InvertedResidual.forward training b x
  | Single l => call training l x
  end.

(** [self.features] is an [nn.Sequential] of the children. *)
Fixpoint features_forward (training : bool) (l : list Child) (x : T)
    : M W T :=
  match l with
  | [] => mret x
  | c :: l' =>
      y <~ child_forward training c x ;; features_forward training l' y
  end.

Definition forward (training : bool) (self : t) (x : T) : M W T :=
  x <~ features_forward training (features self) x ;;
  x <~ lift (view [-1; last_channel self] x) ;;
  x <~ sequential_forward training (classifier self) x ;;
  mret x.
End Forward.

End MnasNet.

(** The default arguments of [MnasNet()]. *)
Definition default_num_steps : Py.num := Py.PFloat (Py.lit 300000 0).

Definition default_net : Py.result MnasNet.t :=
  MnasNet.init 1000 224 (Py.PFloat Py.f1) (Py.PFloat Py.f0) default_num_steps
    ReLU6 inplace.

(** ** A runtime on shapes

    What the operators of the runtime do to the shape of a tensor
    [(batch, channel, height, width)], for positive sizes and strides: the
    channel and group checks and the output size of a convolution.  It is
    used to run the constructed networks on the input of the demo entry
    point and to give the properties stated for every runtime an
    instance.  The state is an integer cell that every operator leaves as
    it finds it. *)

Module Shape.

Definition conv_size (size kernel_size stride padding : Z) : Z :=
  (size + 2 * padding - kernel_size) / stride + 1.

Definition apply (l : Layer) (x : list Z) : Py.result (list Z) :=
  match l, x with
  | Conv2d ic oc k s p g _, [b; c; h; w] =>
      if (c =? ic) && (0 <? g) && (ic mod g =? 0) && (oc mod g =? 0)
      then Py.ret [b; oc; conv_size h k s p; conv_size w k s p]
      else Py.raise Py.RuntimeError
  | BatchNorm2d f, [b; c; h; w] =>
      if c =? f then Py.ret x else Py.raise Py.RuntimeError
  | Activation _ _, _ => Py.ret x
  | DropBlock _, _ => Py.ret x
  | AdaptiveAvgPool2d o, [b; c; _; _] => Py.ret [b; c; o; o]
  | Dropout _, _ => Py.ret x
  | Linear i o, [b; f] =>
      if f =? i then Py.ret [b; o] else Py.raise Py.RuntimeError
  | _, _ => Py.raise Py.RuntimeError
  end.

Definition numel (x : list Z) : Z := fold_right Z.mul 1 x.

Definition reshape (size x : list Z) : Py.result (list Z) :=
  match size with
  | [-1; c] =>
      if (0 <? c) && (numel x mod c =? 0)
      then Py.ret [numel x / c; c]
      else Py.raise Py.RuntimeError
  | _ => Py.raise Py.RuntimeError
  end.

Definition plus (x y : list Z) : Py.result (list Z) :=
  if list_eq_dec Z.eq_dec x y then Py.ret x else Py.raise Py.RuntimeError.

#[global] Instance runtime : Runtime (list Z) Z := {
  call := fun _ l x w =>
            match apply l x with
            | inl e => inl e
            | inr y => inr (y, w)
            end;
  add := plus;
  view := reshape
}.

End Shape.

(** The input of the demo entry point: one 224 x 224 RGB image. *)
Definition image : list Z := [1; 3; 224; 224].

(** ** What is read off a constructed block *)

(** The scheduled drop blocks of a sequential, in order. *)
Fixpoint drop_blocks (l : Sequential) : list DropBlockScheduled :=
  match l with
  | [] => []
  | DropBlock d :: l' => d :: drop_blocks l'
  | _ :: l' => drop_blocks l'
  end.

Definition conv_in (l : Layer) : option Z :=
  match l with
  | Conv2d i _ _ _ _ _ _ => Some i
  | _ => None
  end.

Definition conv_out (l : Layer) : option Z :=
  match l with
  | Conv2d _ o _ _ _ _ _ => Some o
  | _ => None
  end.

Module Block.
Import InvertedResidual.

(** The three stages of [self.conv]. *)
Definition expand (b : t) : Sequential := firstn 4 (conv b).
Definition depthwise (b : t) : Sequential := firstn 4 (skipn 4 (conv b)).
Definition project (b : t) : Sequential := skipn 8 (conv b).

(** Channels entering the first convolution, leaving the last one. *)
Definition in_channels (b : t) : option Z :=
  match nth_error (conv b) 0 with
  | Some l => conv_in l
  | None => None
  end.

Definition out_channels (b : t) : option Z :=
  match nth_error (conv b) 8 with
  | Some l => conv_out l
  | None => None
  end.

(** Every scheduled drop block of the block: those of [self.conv], then
    [self.skip_drop] when the attribute exists. *)
Definition taps (b : t) : list DropBlockScheduled :=
  drop_blocks (conv b)
    ++ match skip_drop b with
       | Some d => [d]
       | None => []
       end.
End Block.

(** The scheduler binding the specification describes: start 0, stop at
    the block's drop probability, mask block size 7. *)
Definition scheduled_tap (drop_probability total_steps : Py.num)
    : DropBlockScheduled :=
  {| dropblock := {| drop_prob := drop_probability; block_size := 7 |};
     start_value := Py.PFloat Py.f0;
     stop_value := drop_probability;
     nr_steps := total_steps |}.

(** The strides [__init__] accepts. *)
Definition valid_stride (stride : Z) : Prop := stride = 1 \/ stride = 2.

(** ** The block configurations the generator derives from a table *)

Definition row_t (row : StageSpec) : Z := let '(t, _, _, _, _, _) := row in t.
Definition row_c (row : StageSpec) : Z := let '(_, c, _, _, _, _) := row in c.
Definition row_n (row : StageSpec) : Z := let '(_, _, n, _, _, _) := row in n.
Definition row_s (row : StageSpec) : Z := let '(_, _, _, s, _, _) := row in s.
Definition row_k (row : StageSpec) : Z := let '(_, _, _, _, k, _) := row in k.
Definition row_dp (row : StageSpec) : Py.num :=
  let '(_, _, _, _, _, dp) := row in dp.

(** The arguments one [InvertedResidual] is constructed with. *)
Record BlockConfig : Type := {
  bc_in : Z;
  bc_out : Z;
  bc_stride : Z;
  bc_expand : Z;
  bc_kernel : Z;
  bc_drop : Py.num
}.

Definition construct_block (num_steps : Py.num) (activation : ActClass)
    (act_params : ActParams) (cfg : BlockConfig)
    : Py.result InvertedResidual.t :=
  InvertedResidual.init (bc_in cfg) (bc_out cfg) (bc_stride cfg)
    (bc_expand cfg) (bc_kernel cfg) (bc_drop cfg) num_steps activation
    act_params.

(** [int(c * width_mult)] *)
Definition scaled_output (width_mult : Py.num) (c : Z) : Py.result Z :=
  p <- Py.mul_int c width_mult ;; Py.int p.

(** The configurations of the blocks of one stage, index by index. *)
Fixpoint loop_configs (idx : list Z) (input_channel output_channel s t k : Z)
    (dp : Py.num) : list BlockConfig :=
  match idx with
  | [] => []
  | i :: idx' =>
      {| bc_in := input_channel;
         bc_out := output_channel;
         bc_stride := if i =? 0 then s else 1;
         bc_expand := t;
         bc_kernel := k;
         bc_drop := dp |}
      :: loop_configs idx' output_channel output_channel s t k dp
  end.

Definition stage_configs (input_channel output_channel : Z) (row : StageSpec)
    : list BlockConfig :=
  loop_configs (range (row_n row)) input_channel output_channel
    (row_s row) (row_t row) (row_k row) (row_dp row).

(** [input_channel] after a stage: unchanged when the stage has no block. *)
Definition running_after (input_channel output_channel : Z) (row : StageSpec)
    : Z :=
  match range (row_n row) with
  | [] => input_channel
  | _ :: _ => output_channel
  end.

(** The configurations of all blocks, [outs] being the scaled output
    channels of the rows. *)
Fixpoint plan (rows : list StageSpec) (outs : list Z) (input_channel : Z)
    : list BlockConfig :=
  match rows, outs with
  | row :: rows', oc :: outs' =>
      stage_configs input_channel oc row
        ++ plan rows' outs' (running_after input_channel oc row)
  | _, _ => []
  end.

Fixpoint running_channels (rows : list StageSpec) (outs : list Z)
    (input_channel : Z) : Z :=
  match rows, outs with
  | row :: rows', oc :: outs' =>
      running_channels rows' outs' (running_after input_channel oc row)
  | _, _ => input_channel
  end.

(** The strides of the blocks of a stage: the row's stride first, then 1. *)
Definition stage_strides (row : StageSpec) : list Z :=
  match Z.to_nat (row_n row) with
  | O => []
  | S m => row_s row :: repeat 1 m
  end.

(** The blocks among the children of [self.features]. *)
Fixpoint blocks_of (l : list Child) : list InvertedResidual.t :=
  match l with
  | [] => []
  | Block b :: l' => b :: blocks_of l'
  | _ :: l' => blocks_of l'
  end.

(** The output channels of the blocks of a stage whose scaled output is
    [oc]. *)
Definition stage_outputs (ro : StageSpec * Z) : list Z :=
  repeat (snd ro) (Z.to_nat (row_n (fst ro))).

(** Each configuration takes the channels the one before it produces. *)
Fixpoint chained (input_channel : Z) (cfgs : list BlockConfig) : Prop :=
  match cfgs with
  | [] => True
  | c :: cfgs' => bc_in c = input_channel /\ chained (bc_out c) cfgs'
  end.

Fixpoint end_channel (input_channel : Z) (cfgs : list BlockConfig) : Z :=
  match cfgs with
  | [] => input_channel
  | c :: cfgs' => end_channel (bc_out c) cfgs'
  end.

(** The stage table of the network, for a base drop probability. *)
Definition stage_table (drop_probability : Py.num) : list StageSpec :=
  [ (3, 24, 3, 2, 3, Py.PInt 0);
    (3, 40, 3, 2, 5, Py.PInt 0);
    (6, 80, 3, 2, 5, Py.PInt 0);
    (6, 96, 2, 1, 3, drop_probability);
    (6, 192, 4, 2, 5, drop_probability);
    (6, 320, 1, 1, 3, drop_probability) ].

(** [int(1280 * width_mult) if width_mult > 1.0 else 1280] *)
Definition last_channel_width (width_mult : Py.num) : Py.result Z :=
  if Py.gt_one width_mult then scaled_output width_mult 1280 else Py.ret 1280.

(** Float arguments used below: 0.5, 1.09375 and 1.0029296875. *)
Definition float_0_5 : Py.num := Py.PFloat (Py.lit 1 (-1)).
Definition float_1_09375 : Py.num := Py.PFloat (Py.lit 35 (-5)).
Definition float_1_0029296875 : Py.num := Py.PFloat (Py.lit 1027 (-10)).

(** ** Further observations on the generator *)

(** The residual connections of the blocks of a stage: the first block
    has one when the stride is 1 and the channels do not change, the later
    blocks always. *)
Definition stage_shortcuts (input_channel output_channel : Z)
    (row : StageSpec) : list bool :=
  match Z.to_nat (row_n row) with
  | O => []
  | S m =>
      ((row_s row =? 1) && (input_channel =? output_channel)) :: repeat true m
  end.

Fixpoint shortcut_pattern (rows : list StageSpec) (outs : list Z)
    (input_channel : Z) : list bool :=
  match rows, outs with
  | row :: rows', oc :: outs' =>
      stage_shortcuts input_channel oc row
        ++ shortcut_pattern rows' outs' (running_after input_channel oc row)
  | _, _ => []
  end.

(** The number of blocks a table asks for. *)
Definition block_count (rows : list StageSpec) : nat :=
  fold_right (fun row k => (Z.to_nat (row_n row) + k)%nat) 0%nat rows.

(** The scheduled drop blocks of a child of [self.features]. *)
Definition child_drop_blocks (c : Child) : list DropBlockScheduled :=
  match c with
  | Seq l => drop_blocks l
  | Block b => Block.taps b
  | Single l => drop_blocks [l]
  end.

(** [self.skip_drop] exists when [forward] looks it up. *)
Definition has_skip_drop (b : InvertedResidual.t) : Prop :=
  InvertedResidual.use_res_connect b = true ->
  InvertedResidual.skip_drop b <> None.

Definition child_has_skip_drop (c : Child) : Prop :=
  match c with
  | Block b => has_skip_drop b
  | _ => True
  end.

(** ** The module calls of a forward pass *)








(** ** Lemmas on the monads *)

Lemma bind_inr {A B} (m : Py.result A) (k : A -> Py.result B) (b : B) :
  (x <- m ;; k x) = inr b -> exists a, m = inr a /\ k a = inr b.
Proof.
  destruct m as [e | a]; simpl; intro H; [discriminate | eauto].
Qed.



Section SequentialFacts.
Context {T W : Type} {R : Runtime T W}.

Lemma sequential_forward_app training (l1 l2 : Sequential) (x : T) (w : W) :
  sequential_forward training (l1 ++ l2) x w
  = (y <~ sequential_forward training l1 x ;;
     sequential_forward training l2 y) w.
Proof.
  revert x w. induction l1 as [| m l1 IH]; intros x w; simpl.
  - reflexivity.
  - unfold mbind in *.
    destruct (call training m x w) as [e | [y w1]]; [reflexivity | ].
    apply IH.
Qed.
End SequentialFacts.

(** ** Construction of a block *)

Lemma stride_check (stride : Z) :
  existsb (Z.eqb stride) [1; 2] = true <-> valid_stride stride.
Proof.
  unfold valid_stride. simpl. rewrite !orb_true_iff, !Z.eqb_eq.
  intuition discriminate.
Qed.

Section BlockConstruction.
Variables (inp oup stride expand_ratio kernel : Z).
Variables (drop_probability total_steps : Py.num).
Variables (activation : ActClass) (act_params : ActParams).

Local Abbreviation construct :=
  (InvertedResidual.init inp oup stride expand_ratio kernel
     drop_probability total_steps activation act_params).

Lemma init_raises :
  ~ valid_stride stride -> construct = inl Py.AssertionError.
Proof.
  intro H. unfold InvertedResidual.init.
  destruct (existsb (Z.eqb stride) [1; 2]) eqn:E; [ | reflexivity].
  apply stride_check in E. contradiction.
Qed.


(** What [__init__] leaves in the object. *)
Lemma init_inr (b : InvertedResidual.t) :
  construct = inr b ->
  valid_stride stride
  /\ InvertedResidual.stride b = stride
  /\ InvertedResidual.use_res_connect b = ((stride =? 1) && (inp =? oup))
  /\ Block.expand b =
       [ Conv2d inp (inp * expand_ratio) 1 1 0 1 false;
         BatchNorm2d (inp * expand_ratio);
         DropBlock (scheduled_tap drop_probability total_steps);
         Activation activation act_params ]
  /\ Block.depthwise b =
       [ Conv2d (inp * expand_ratio) (inp * expand_ratio) kernel stride
                (kernel / 2) (inp * expand_ratio) false;
         BatchNorm2d (inp * expand_ratio);
         DropBlock (scheduled_tap drop_probability total_steps);
         Activation activation act_params ]
  /\ Block.project b =
       [ Conv2d (inp * expand_ratio) oup 1 1 0 1 false;
         BatchNorm2d oup;
         DropBlock (scheduled_tap drop_probability total_steps) ]
  /\ InvertedResidual.conv b
     = Block.expand b ++ Block.depthwise b ++ Block.project b
  /\ InvertedResidual.skip_drop b =
       (if InvertedResidual.use_res_connect b
        then Some (scheduled_tap drop_probability total_steps)
        else None).
Proof.
  unfold InvertedResidual.init.
  destruct (existsb (Z.eqb stride) [1; 2]) eqn:E; simpl; [ | discriminate].
  intro H. inversion H; subst b; clear H.
  apply stride_check in E.
  repeat split; auto.
Qed.

Lemma init_channels (b : InvertedResidual.t) :
  construct = inr b ->
  Block.in_channels b = Some inp /\ Block.out_channels b = Some oup.
Proof.
  intro H. apply init_inr in H.
  destruct H as (_ & _ & _ & He & Hd & Hp & Hc & _).
  unfold Block.in_channels, Block.out_channels.
  rewrite Hc, He, Hd, Hp. split; reflexivity.
Qed.

Lemma init_taps (b : InvertedResidual.t) :
  construct = inr b ->
  Block.taps b =
    repeat (scheduled_tap drop_probability total_steps)
      (if InvertedResidual.use_res_connect b then 4 else 3).
Proof.
  intro H. apply init_inr in H.
  destruct H as (_ & _ & _ & He & Hd & Hp & Hc & Hs).
  unfold Block.taps. rewrite Hc, He, Hd, Hp, Hs.
  destruct (InvertedResidual.use_res_connect b); reflexivity.
Qed.
End BlockConstruction.

(** ** The loop that builds the blocks *)

Section BuildBlocks.
Variables (width_mult total_steps : Py.num).
Variables (activation : ActClass) (act_params : ActParams).

Local Abbreviation constructed :=
  (fun cfg b => construct_block total_steps activation act_params cfg = inr b).

Lemma repeat_loop_inr output_channel s t k dp (idx : list Z) :
  forall fs ic fs' ic',
  for_each idx
    (MnasNet.repeat_body output_channel s t k dp total_steps activation
       act_params) (fs, ic) = inr (fs', ic') ->
  exists blocks,
    Forall2 constructed (loop_configs idx ic output_channel s t k dp) blocks
    /\ fs' = fs ++ map Block blocks
    /\ ic' = match idx with [] => ic | _ :: _ => output_channel end.
Proof.
  induction idx as [| i idx IH]; intros fs ic fs' ic' H; simpl in H.
  - inversion H; subst. exists []. rewrite app_nil_r. repeat split; constructor.
  - apply bind_inr in H. destruct H as ([fs1 ic1] & Hbody & Hrest).
    unfold MnasNet.repeat_body in Hbody.
    apply bind_inr in Hbody. destruct Hbody as (b & Hb & Hret).
    inversion Hret; subst fs1 ic1; clear Hret.
    apply IH in Hrest. destruct Hrest as (blocks & Hall & Hfs & Hic).
    exists (b :: blocks). repeat split.
    + simpl. constructor; [ | exact Hall].
      unfold construct_block; simpl. destruct (i =? 0); exact Hb.
    + rewrite Hfs, <- app_assoc. reflexivity.
    + destruct idx; assumption.
Qed.

Lemma stage_body_inr (row : StageSpec) fs ic fs' ic' :
  MnasNet.stage_body width_mult total_steps activation act_params (fs, ic) row
    = inr (fs', ic') ->
  exists oc blocks,
    scaled_output width_mult (row_c row) = inr oc
    /\ Forall2 constructed (stage_configs ic oc row) blocks
    /\ fs' = fs ++ map Block blocks
    /\ ic' = running_after ic oc row.
Proof.
  destruct row as [[[[[t c] n] s] k] dp]. unfold MnasNet.stage_body.
  intro H. apply bind_inr in H. destruct H as (oc & Hoc & Hloop).
  apply repeat_loop_inr in Hloop. destruct Hloop as (blocks & Hall & Hfs & Hic).
  exists oc, blocks. repeat split; assumption.
Qed.

Lemma build_blocks_inr (rows : list StageSpec) :
  forall fs ic fs' ic',
  MnasNet.build_blocks rows width_mult total_steps activation act_params
    (fs, ic) = inr (fs', ic') ->
  exists outs blocks,
    Forall2 (fun row oc => scaled_output width_mult (row_c row) = inr oc)
      rows outs
    /\ Forall2 constructed (plan rows outs ic) blocks
    /\ fs' = fs ++ map Block blocks
    /\ ic' = running_channels rows outs ic.
Proof.
  unfold MnasNet.build_blocks.
  induction rows as [| row rows IH]; intros fs ic fs' ic' H; simpl in H.
  - inversion H; subst. exists [], []. rewrite app_nil_r.
    repeat split; constructor.
  - apply bind_inr in H. destruct H as ([fs1 ic1] & Hstage & Hrest).
    apply stage_body_inr in Hstage.
    destruct Hstage as (oc & bs1 & Hoc & Hall1 & Hfs1 & Hic1).
    apply IH in Hrest. destruct Hrest as (outs & bs2 & Houts & Hall2 & Hfs & Hic).
    subst fs1 ic1.
    exists (oc :: outs), (bs1 ++ bs2). repeat split.
    + constructor; assumption.
    + simpl. apply Forall2_app; assumption.
    + rewrite Hfs, map_app, app_assoc. reflexivity.
    + exact Hic.
Qed.



End BuildBlocks.

(** ** The configurations of a table *)

Lemma range_length n : length (range n) = Z.to_nat n.
Proof. unfold range. rewrite length_map, length_seq. reflexivity. Qed.

Lemma range_succ n m :
  Z.to_nat n = S m -> range n = 0 :: map Z.of_nat (seq 1 m).
Proof. unfold range. intros ->. reflexivity. Qed.

Lemma loop_configs_out idx ic oc s t k dp :
  map bc_out (loop_configs idx ic oc s t k dp) = repeat oc (length idx).
Proof.
  revert ic. induction idx as [| i idx IH]; intro ic; simpl;
    [ | rewrite IH]; reflexivity.
Qed.


Lemma loop_configs_chained idx ic oc s t k dp :
  chained ic (loop_configs idx ic oc s t k dp).
Proof.
  revert ic. induction idx as [| i idx IH]; intro ic; simpl; auto.
Qed.

Lemma loop_configs_end idx ic oc s t k dp :
  end_channel ic (loop_configs idx ic oc s t k dp)
  = match idx with [] => ic | _ :: _ => oc end.
Proof.
  destruct idx as [| i idx]; [reflexivity | ]. simpl.
  induction idx as [| j idx IH]; simpl; [reflexivity | exact IH].
Qed.

Lemma loop_configs_later_strides j m ic oc s t k dp :
  map bc_stride (loop_configs (map Z.of_nat (seq (S j) m)) ic oc s t k dp)
  = repeat 1 m.
Proof.
  revert j ic. induction m as [| m IH]; intros j ic; simpl; [reflexivity | ].
  rewrite IH. reflexivity.
Qed.

Lemma stage_configs_strides ic oc row :
  map bc_stride (stage_configs ic oc row) = stage_strides row.
Proof.
  unfold stage_configs, stage_strides.
  destruct (Z.to_nat (row_n row)) as [| m] eqn:E.
  - unfold range. rewrite E. reflexivity.
  - rewrite (range_succ _ _ E). simpl.
    rewrite loop_configs_later_strides. reflexivity.
Qed.

Lemma chained_app ic l1 l2 :
  chained ic l1 -> chained (end_channel ic l1) l2 -> chained ic (l1 ++ l2).
Proof.
  revert ic. induction l1 as [| c l1 IH]; intros ic H1 H2; simpl in *.
  - exact H2.
  - destruct H1 as [Hc H1]. split; [exact Hc | apply IH; assumption].
Qed.


Lemma chained_inputs ic l :
  chained ic l -> map bc_in l = firstn (length l) (ic :: map bc_out l).
Proof.
  revert ic. induction l as [| c l IH]; intros ic H; simpl in *.
  - reflexivity.
  - destruct H as [Hc H]. rewrite Hc. f_equal. apply IH. exact H.
Qed.

Lemma stage_configs_end ic oc row :
  end_channel ic (stage_configs ic oc row) = running_after ic oc row.
Proof. unfold stage_configs, running_after. apply loop_configs_end. Qed.

Lemma plan_chained rows :
  forall outs ic, chained ic (plan rows outs ic).
Proof.
  induction rows as [| row rows IH]; intros [| oc outs] ic; simpl; auto.
  apply chained_app.
  - apply loop_configs_chained.
  - rewrite stage_configs_end. apply IH.
Qed.


Lemma plan_strides rows outs :
  length outs = length rows ->
  forall ic, map bc_stride (plan rows outs ic) = flat_map stage_strides rows.
Proof.
  revert outs. induction rows as [| row rows IH]; intros [| oc outs] Hlen ic;
    simpl in *; try discriminate; [reflexivity | ].
  rewrite map_app, stage_configs_strides. f_equal. apply IH. lia.
Qed.

Lemma plan_outputs rows :
  forall outs ic,
  map bc_out (plan rows outs ic) = flat_map stage_outputs (combine rows outs).
Proof.
  induction rows as [| row rows IH]; intros [| oc outs] ic; simpl; auto.
  rewrite map_app, IH. f_equal.
  unfold stage_configs, stage_outputs. simpl.
  rewrite loop_configs_out, range_length. reflexivity.
Qed.


(** From the configurations to the constructed blocks. *)
Lemma constructed_observables ns a p cfgs blocks :
  Forall2 (fun cfg b => construct_block ns a p cfg = inr b) cfgs blocks ->
  map InvertedResidual.stride blocks = map bc_stride cfgs
  /\ map Block.in_channels blocks = map Some (map bc_in cfgs)
  /\ map Block.out_channels blocks = map Some (map bc_out cfgs)
  /\ Forall (fun cfg => valid_stride (bc_stride cfg)) cfgs.
Proof.
  induction 1 as [| cfg b cfgs blocks Hb Hrest IH]; simpl.
  - repeat split; constructor.
  - destruct IH as (Hs & Hi & Ho & Hv).
    unfold construct_block in Hb.
    destruct (init_channels _ _ _ _ _ _ _ _ _ _ Hb) as [Hin Hout].
    apply init_inr in Hb. destruct Hb as (Hvalid & Hstride & _).
    rewrite Hs, Hi, Ho, Hstride, Hin, Hout.
    repeat split; auto.
Qed.

Lemma blocks_of_app l1 l2 : blocks_of (l1 ++ l2) = blocks_of l1 ++ blocks_of l2.
Proof.
  induction l1 as [| c l1 IH]; simpl; [reflexivity | ].
  destruct c; simpl; rewrite IH; reflexivity.
Qed.

Lemma blocks_of_map bs : blocks_of (map Block bs) = bs.
Proof. induction bs as [| b bs IH]; simpl; [ | rewrite IH]; reflexivity. Qed.

(** ** Construction of the network *)

Section NetworkConstruction.
Variables (n_class input_size : Z).
Variables (width_mult drop_probability total_steps : Py.num).
Variables (activation : ActClass) (act_params : ActParams).

Local Abbreviation construct_net :=
  (MnasNet.init n_class input_size width_mult drop_probability total_steps
     activation act_params).


(** What [__init__] leaves in the object. *)
Lemma net_init_inr (net : MnasNet.t) :
  construct_net = inr net ->
  input_size mod 32 = 0
  /\ MnasNet.activation net = activation
  /\ MnasNet.act_params net = act_params
  /\ MnasNet.interverted_residual_setting net = stage_table drop_probability
  /\ MnasNet.num_steps net = total_steps
  /\ last_channel_width width_mult = inr (MnasNet.last_channel net)
  /\ MnasNet.classifier net
     = [Dropout Py.f0; Linear (MnasNet.last_channel net) n_class]
  /\ exists ic0 outs blocks,
       scaled_output width_mult 32 = inr ic0
       /\ Forall2 (fun row oc => scaled_output width_mult (row_c row) = inr oc)
            (stage_table drop_probability) outs
       /\ Forall2
            (fun cfg b =>
               construct_block total_steps activation act_params cfg = inr b)
            (plan (stage_table drop_probability) outs 16) blocks
       /\ MnasNet.features net
          = [ Seq (Conv_3x3 3 ic0 2 activation act_params);
              Seq (SepConv_3x3 ic0 16 activation act_params) ]
            ++ map Block blocks
            ++ [ Seq (Conv_1x1
                        (running_channels (stage_table drop_probability) outs 16)
                        (MnasNet.last_channel net) activation act_params);
                 Single (AdaptiveAvgPool2d 1) ].
Proof.
  unfold MnasNet.init. fold (stage_table drop_probability).
  destruct (input_size mod 32 =? 0) eqn:Hsize; simpl; [ | discriminate].
  apply Z.eqb_eq in Hsize.
  fold (scaled_output width_mult 32). fold (scaled_output width_mult 1280).
  fold (last_channel_width width_mult).
  intro H. apply bind_inr in H. destruct H as (ic0 & Hic0 & H).
  apply bind_inr in H. destruct H as (lc & Hlc & H).
  apply bind_inr in H. destruct H as ([fs rc] & Hbuild & H).
  inversion H; subst net; clear H. simpl.
  apply build_blocks_inr in Hbuild.
  destruct Hbuild as (outs & blocks & Houts & Hblocks & Hfs & Hrc).
  subst fs rc.
  repeat split; auto.
  exists ic0, outs, blocks. repeat split; auto.
  rewrite <- !app_assoc. reflexivity.
Qed.

End NetworkConstruction.




(** ** The inverted residual block *)

(** C3: for every constructed block, whatever the input and output channel
    counts, the stride is 1 or 2, [use_res_connect] is true if and only if
    the stride is 1 and the input channels equal the output channels, and
    the flag alone decides whether [forward] adds the input to the output
    of [self.conv]. *)
Theorem C3_use_shortcut_iff :
  forall inp oup stride expand_ratio kernel drop_probability total_steps
         activation act_params b,
  InvertedResidual.init inp oup stride expand_ratio kernel drop_probability
    total_steps activation act_params = inr b ->
  valid_stride stride
  /\ (InvertedResidual.use_res_connect b = true
      <-> stride = 1 /\ inp = oup)
  /\ forall (T W : Type) (R : Runtime T W) training (x : T) (w : W),
       InvertedResidual.forward training b x w
       = if InvertedResidual.use_res_connect b
         then (y <~ sequential_forward training (InvertedResidual.conv b) x ;;
               s <~ lift (add x y) ;;
               call training
                 (DropBlock (scheduled_tap drop_probability total_steps)) s)
                w
         else sequential_forward training (InvertedResidual.conv b) x w.
Proof.
  intros inp oup stride expand_ratio kernel dp ns a p b Hb.
  apply init_inr in Hb.
  destruct Hb as (Hv & _ & Hflag & _ & _ & _ & _ & Hskip).
  split; [exact Hv | ]. split.
  - rewrite Hflag, andb_true_iff, !Z.eqb_eq. reflexivity.
  - intros T W R training x w. unfold InvertedResidual.forward.
    rewrite Hskip.
    destruct (InvertedResidual.use_res_connect b); reflexivity.
Qed.

Lemma C3_use_shortcut_iff_witness :
  exists b,
    InvertedResidual.init 24 24 1 3 3 (Py.PInt 0) default_num_steps ReLU6
      inplace = inr b
    /\ InvertedResidual.use_res_connect b = true.
Proof.
  eexists. split; [reflexivity | ].
  apply (C3_use_shortcut_iff 24 24 1 3 3 (Py.PInt 0) default_num_steps ReLU6
           inplace _ eq_refl).
  split; reflexivity.
Defined.

(** C4: for every constructed block and every input, [forward] returns tap
    D applied to the sum of the input and project(depthwise(expand(input)))
    when [use_res_connect] is true, tap D existing in that case only, and
    returns project(depthwise(expand(input))) otherwise; expand, depthwise
    and project are the three groups of layers of [self.conv]. *)
Theorem C4_forward_contract :
  forall inp oup stride expand_ratio kernel drop_probability total_steps
         activation act_params b,
  InvertedResidual.init inp oup stride expand_ratio kernel drop_probability
    total_steps activation act_params = inr b ->
  (Block.expand b
   = [ Conv2d inp (inp * expand_ratio) 1 1 0 1 false;
       BatchNorm2d (inp * expand_ratio);
       DropBlock (scheduled_tap drop_probability total_steps);
       Activation activation act_params ]
   /\ Block.depthwise b
      = [ Conv2d (inp * expand_ratio) (inp * expand_ratio) kernel stride
                 (kernel / 2) (inp * expand_ratio) false;
          BatchNorm2d (inp * expand_ratio);
          DropBlock (scheduled_tap drop_probability total_steps);
          Activation activation act_params ]
   /\ Block.project b
      = [ Conv2d (inp * expand_ratio) oup 1 1 0 1 false;
          BatchNorm2d oup;
          DropBlock (scheduled_tap drop_probability total_steps) ])
  /\ (InvertedResidual.use_res_connect b = true ->
     InvertedResidual.skip_drop b
       = Some (scheduled_tap drop_probability total_steps)
     /\ forall (T W : Type) (R : Runtime T W) training (x : T) (w : W),
          InvertedResidual.forward training b x w
          = (e <~ sequential_forward training (Block.expand b) x ;;
             d <~ sequential_forward training (Block.depthwise b) e ;;
             y <~ sequential_forward training (Block.project b) d ;;
             s <~ lift (add x y) ;;
             call training
               (DropBlock (scheduled_tap drop_probability total_steps)) s) w)
  /\ (InvertedResidual.use_res_connect b = false ->
        InvertedResidual.skip_drop b = None
        /\ forall (T W : Type) (R : Runtime T W) training (x : T) (w : W),
             InvertedResidual.forward training b x w
             = (e <~ sequential_forward training (Block.expand b) x ;;
                d <~ sequential_forward training (Block.depthwise b) e ;;
                sequential_forward training (Block.project b) d) w).
Proof.
  intros inp oup stride expand_ratio kernel dp ns a p b Hb.
  apply init_inr in Hb.
  destruct Hb as (_ & _ & _ & He & Hd & Hp & Hconv & Hskip).
  split; [repeat split; assumption | ]. clear He Hd Hp.
  assert (Hseq : forall (T W : Type) (R : Runtime T W) training (x : T) (w : W),
             sequential_forward training (InvertedResidual.conv b) x w
             = (e <~ sequential_forward training (Block.expand b) x ;;
                d <~ sequential_forward training (Block.depthwise b) e ;;
                sequential_forward training (Block.project b) d) w).
  { intros T W R training x w. rewrite Hconv, sequential_forward_app.
    unfold mbind.
    destruct (sequential_forward training (Block.expand b) x w)
      as [e | [y w1]]; [reflexivity | ].
    apply sequential_forward_app. }
  split; intro Hflag; rewrite Hflag in Hskip; (split; [exact Hskip | ]);
    intros T W R training x w; unfold InvertedResidual.forward;
    rewrite Hflag, ?Hskip.
  - unfold mbind at 1. rewrite Hseq. unfold mbind.
    destruct (sequential_forward training (Block.expand b) x w)
      as [e | [y1 w1]]; [reflexivity | ].
    destruct (sequential_forward training (Block.depthwise b) y1 w1)
      as [e | [y2 w2]]; reflexivity.
  - apply Hseq.
Qed.

Lemma C4_forward_contract_witness :
  exists b,
    InvertedResidual.init 16 24 2 3 3 (Py.PInt 0) default_num_steps ReLU6
      inplace = inr b
    /\ InvertedResidual.skip_drop b = None.
Proof.
  eexists. split; [reflexivity | ].
  apply (C4_forward_contract 16 24 2 3 3 (Py.PInt 0) default_num_steps ReLU6
           inplace _ eq_refl).
  reflexivity.
Defined.


(** ** The architecture generator *)

Lemma int_of_float_truncates s m e :
  Py.int_of_float (S754_finite s m e)
  = inr (Z.quot (cond_Zopp s (Z.pos m) * 2 ^ Z.max e 0) (2 ^ Z.max (- e) 0)).
Proof.
  unfold Py.int_of_float, Py.ret. f_equal.
  destruct (Z.leb_spec 0 e) as [He | He].
  - rewrite Z.max_l, Z.max_r by lia. rewrite Z.pow_0_r, Z.quot_1_r.
    rewrite Z.shiftl_mul_pow2 by exact He.
    destruct s; unfold cond_Zopp; [rewrite Z.mul_opp_l | ]; reflexivity.
  - rewrite Z.max_r, Z.max_l by lia. rewrite Z.pow_0_r, Z.mul_1_r.
    assert (Hd : 0 < 2 ^ (- e)) by (apply Z.pow_pos_nonneg; lia).
    replace (Z.shiftl (Z.pos m) e) with (Z.shiftr (Z.pos m) (- e))
      by (unfold Z.shiftr; rewrite Z.opp_involutive; reflexivity).
    rewrite Z.shiftr_div_pow2 by lia.
    destruct s; unfold cond_Zopp.
    + rewrite Z.quot_opp_l by lia.
      rewrite Z.quot_div_nonneg by lia. reflexivity.
    + rewrite Z.quot_div_nonneg by lia. reflexivity.
Qed.

(** C5: for every stage table, in the block sequence the generator builds,
    the first block of a stage has the stage's stride and the later blocks
    of the stage have stride 1, and the input channels of each block after
    the first are the output channels of the block before it, which are the
    scaled output channels of that block's stage. *)
Theorem C5_stride_and_channel_propagation :
  forall rows width_mult total_steps activation act_params fs ic fs' ic',
  MnasNet.build_blocks rows width_mult total_steps activation act_params
    (fs, ic) = inr (fs', ic') ->
  exists outs blocks,
    fs' = fs ++ map Block blocks
    /\ Forall2 (fun row oc => scaled_output width_mult (row_c row) = inr oc)
         rows outs
    /\ map InvertedResidual.stride blocks = flat_map stage_strides rows
    /\ map Block.out_channels blocks
       = map Some (flat_map stage_outputs (combine rows outs))
    /\ map Block.in_channels blocks
       = map Some
           (firstn (length blocks)
              (ic :: flat_map stage_outputs (combine rows outs))).
Proof.
  intros rows w ns a p fs ic fs' ic' H.
  apply build_blocks_inr in H.
  destruct H as (outs & blocks & Houts & Hblocks & Hfs & _).
  exists outs, blocks.
  pose proof (Forall2_length Houts) as Hlen.
  pose proof (Forall2_length Hblocks) as Hlen'.
  apply constructed_observables in Hblocks.
  destruct Hblocks as (Hs & Hi & Ho & _).
  repeat split; try assumption.
  - rewrite Hs. apply plan_strides. symmetry. exact Hlen.
  - rewrite Ho, plan_outputs. reflexivity.
  - rewrite Hi, (chained_inputs ic) by apply plan_chained.
    rewrite plan_outputs, Hlen'. reflexivity.
Qed.

Lemma C5_stride_and_channel_propagation_witness :
  exists fs' ic' blocks,
    MnasNet.build_blocks (stage_table (Py.PFloat Py.f0)) (Py.PFloat Py.f1)
      default_num_steps ReLU6 inplace ([], 16) = inr (fs', ic')
    /\ fs' = map Block blocks
    /\ map InvertedResidual.stride blocks
       = [2; 1; 1; 2; 1; 1; 2; 1; 1; 1; 1; 2; 1; 1; 1; 1].
Proof.
  destruct (MnasNet.build_blocks (stage_table (Py.PFloat Py.f0))
              (Py.PFloat Py.f1) default_num_steps ReLU6 inplace ([], 16))
    as [e | [fs' ic']] eqn:E.
  - vm_compute in E. discriminate E.
  - destruct (C5_stride_and_channel_propagation _ _ _ _ _ _ _ _ _ E)
      as (outs & blocks & Hfs & _ & Hs & _).
    exists fs', ic', blocks. repeat split; assumption.
Defined.

(** C2, amended: for every row of the table and every width multiplier,
    each block of the stage has [int(c * width_mult)] output channels, the
    float product cut towards zero, with no alignment applied; with a
    width multiplier of 0.5, 24 output channels become 12. *)
Theorem C2_scaled_output_truncates :
  (forall rows width_mult total_steps activation act_params fs ic fs' ic',
     MnasNet.build_blocks rows width_mult total_steps activation act_params
       (fs, ic) = inr (fs', ic') ->
     exists outs blocks,
       fs' = fs ++ map Block blocks
       /\ Forall2
            (fun row oc =>
               (x <- Py.mul_int (row_c row) width_mult ;; Py.int x) = inr oc)
            rows outs
       /\ map Block.out_channels blocks
          = map Some (flat_map stage_outputs (combine rows outs)))
  /\ (forall s m e,
        Py.int (Py.PFloat (S754_finite s m e))
        = inr (Z.quot (cond_Zopp s (Z.pos m) * 2 ^ Z.max e 0)
                 (2 ^ Z.max (- e) 0)))
  /\ (x <- Py.mul_int 24 float_0_5 ;; Py.int x) = inr 12.
Proof.
  split; [ | split].
  - intros rows w ns a p fs ic fs' ic' H.
    apply build_blocks_inr in H.
    destruct H as (outs & blocks & Houts & Hblocks & Hfs & _).
    exists outs, blocks.
    apply constructed_observables in Hblocks.
    destruct Hblocks as (_ & _ & Ho & _).
    repeat split; try assumption.
    rewrite Ho, plan_outputs. reflexivity.
  - intros s m e. apply int_of_float_truncates.
  - reflexivity.
Qed.

Lemma C2_scaled_output_truncates_witness :
  exists fs' ic' blocks,
    MnasNet.build_blocks (stage_table (Py.PFloat Py.f0)) float_0_5
      default_num_steps ReLU6 inplace ([], 16) = inr (fs', ic')
    /\ fs' = map Block blocks
    /\ map Block.out_channels blocks
       = map Some [12; 12; 12; 20; 20; 20; 40; 40; 40; 48; 48;
                   96; 96; 96; 96; 160].
Proof.
  destruct (MnasNet.build_blocks (stage_table (Py.PFloat Py.f0)) float_0_5
              default_num_steps ReLU6 inplace ([], 16))
    as [e | [fs' ic']] eqn:E.
  - vm_compute in E. discriminate E.
  - destruct (proj1 C2_scaled_output_truncates _ _ _ _ _ _ _ _ _ E)
      as (outs & blocks & Hfs & Houts & Ho).
    exists fs', ic', blocks. repeat split; try assumption.
    rewrite Ho. clear - Houts.
    repeat match goal with
           | H : Forall2 _ (stage_table _) _ |- _ =>
               unfold stage_table in H
           | H : Forall2 _ (_ :: _) _ |- _ =>
               inversion H; subst; clear H
           | H : Forall2 _ [] _ |- _ => inversion H; subst; clear H
           | H : (x <- Py.mul_int _ _ ;; Py.int x) = inr _ |- _ =>
               vm_compute in H; inversion H; subst; clear H
           end.
    reflexivity.
Defined.

(** C2, as stated, fails: with a width multiplier of 1.09375 the first
    block of the second stage (40 output channels in the table) has 43
    output channels, and 40 x 1.09375 = 43.75 rounds to 44 under either
    round-half rule. *)
Lemma C2_round_half_counterexample :
  exists net b,
    MnasNet.init 1000 224 float_1_09375 (Py.PFloat Py.f0) default_num_steps
      ReLU6 inplace = inr net
    /\ nth_error (blocks_of (MnasNet.features net)) 3 = Some b
    /\ Block.out_channels b = Some 43
    /\ ~ (exists oc,
            (x <- Py.mul_int 40 float_1_09375 ;; Py.round x) = inr oc
            /\ Block.out_channels b = Some oc)
    /\ ~ (exists oc,
            (x <- Py.mul_int 40 float_1_09375 ;; Py.round_half_away x)
            = inr oc
            /\ Block.out_channels b = Some oc).
Proof.
  eexists. eexists. split; [vm_compute; reflexivity | ].
  split; [vm_compute; reflexivity | ].
  split; [reflexivity | ].
  split; intros (oc & Hr & Ho); vm_compute in Hr, Ho; congruence.
Qed.

(** ** The stage table of the network *)

Lemma stage_table_outs width_mult drop_probability outs :
  Forall2 (fun row oc => scaled_output width_mult (row_c row) = inr oc)
    (stage_table drop_probability) outs ->
  exists o24 o40 o80 o96 o192 o320,
    outs = [o24; o40; o80; o96; o192; o320]
    /\ scaled_output width_mult 24 = inr o24
    /\ scaled_output width_mult 40 = inr o40
    /\ scaled_output width_mult 80 = inr o80
    /\ scaled_output width_mult 96 = inr o96
    /\ scaled_output width_mult 192 = inr o192
    /\ scaled_output width_mult 320 = inr o320.
Proof.
  unfold stage_table. intro H.
  repeat match goal with
         | H : Forall2 _ (_ :: _) _ |- _ => inversion H; subst; clear H
         | H : Forall2 _ [] _ |- _ => inversion H; subst; clear H
         end.
  simpl in *. do 6 eexists. repeat split; eassumption.
Qed.

(** The sixteen blocks of a constructed network, stage by stage. *)
Lemma net_blocks n_class input_size width_mult drop_probability total_steps
    activation act_params net :
  MnasNet.init n_class input_size width_mult drop_probability total_steps
    activation act_params = inr net ->
  exists o24 o40 o80 o96 o192 o320 early late,
    scaled_output width_mult 24 = inr o24
    /\ scaled_output width_mult 40 = inr o40
    /\ scaled_output width_mult 80 = inr o80
    /\ scaled_output width_mult 96 = inr o96
    /\ scaled_output width_mult 192 = inr o192
    /\ scaled_output width_mult 320 = inr o320
    /\ blocks_of (MnasNet.features net) = early ++ late
    /\ Forall2
         (fun cfg b =>
            construct_block total_steps activation act_params cfg = inr b)
         (plan (firstn 3 (stage_table drop_probability)) [o24; o40; o80] 16)
         early
    /\ Forall2
         (fun cfg b =>
            construct_block total_steps activation act_params cfg = inr b)
         (plan (skipn 3 (stage_table drop_probability)) [o96; o192; o320] o80)
         late.
Proof.
  intro H. apply net_init_inr in H.
  destruct H as (_ & _ & _ & _ & _ & _ & _ & ic0 & outs & blocks & _ & Houts
                 & Hblocks & Hfeatures).
  apply stage_table_outs in Houts.
  destruct Houts as (o24 & o40 & o80 & o96 & o192 & o320 & -> & H24 & H40
                     & H80 & H96 & H192 & H320).
  change (plan (stage_table drop_probability) [o24; o40; o80; o96; o192; o320]
            16)
    with (plan (firstn 3 (stage_table drop_probability)) [o24; o40; o80] 16
          ++ plan (skipn 3 (stage_table drop_probability)) [o96; o192; o320]
               o80) in Hblocks.
  apply Forall2_app_inv_l in Hblocks.
  destruct Hblocks as (early & late & Hearly & Hlate & ->).
  exists o24, o40, o80, o96, o192, o320, early, late.
  repeat split; try assumption.
  rewrite Hfeatures. simpl.
  rewrite blocks_of_app, blocks_of_map. simpl. apply app_nil_r.
Qed.


Lemma constructed_taps_uniform ns a p dp cfgs blocks :
  Forall2 (fun cfg b => construct_block ns a p cfg = inr b) cfgs blocks ->
  Forall (fun cfg => bc_drop cfg = dp) cfgs ->
  map Block.taps blocks
  = map (fun b =>
           repeat (scheduled_tap dp ns)
             (if InvertedResidual.use_res_connect b then 4 else 3))
        blocks.
Proof.
  induction 1 as [| cfg b cfgs blocks Hb Hrest IH]; simpl; [reflexivity | ].
  intro Hdp. inversion Hdp as [| ? ? Hc Hcs]; subst.
  unfold construct_block in Hb. apply init_taps in Hb.
  rewrite Hb, IH by exact Hcs. reflexivity.
Qed.

Lemma constructed_taps_scheduled ns a p cfgs blocks :
  Forall2 (fun cfg b => construct_block ns a p cfg = inr b) cfgs blocks ->
  Forall
    (fun b =>
       Forall
         (fun d =>
            start_value d = Py.PFloat Py.f0
            /\ stop_value d = drop_prob (dropblock d)
            /\ nr_steps d = ns
            /\ block_size (dropblock d) = 7)
         (Block.taps b))
    blocks.
Proof.
  induction 1 as [| cfg b cfgs blocks Hb Hrest IH]; constructor;
    [ | exact IH].
  unfold construct_block in Hb. apply init_taps in Hb. rewrite Hb.
  apply Forall_forall. intros d Hd. apply repeat_spec in Hd. subst d.
  repeat split.
Qed.

(** ** Forward passes and the state of the runtime *)





(** The change of a measure of the state over a pass is the sum of the
    changes over the module calls. *)
Section Additive.
Context {T W : Type} {R : Runtime T W}.
Variable mu : W -> Z.
Variable delta : bool -> Layer -> Z.
Hypothesis call_adds :
  forall training l (x : T) (w : W) y w',
    call training l x w = inr (y, w') -> mu w' = mu w + delta training l.




End Additive.




(** ** The head of the network *)

(** C7, amended: the body ends with a 1x1 convolution from the running
    channels (the output channels of the last block) to [last_channel],
    where [last_channel] is [int(1280 * width_mult)], cut towards zero, if
    [width_mult > 1.0] and 1280 otherwise; the features are flattened to
    length [last_channel] and the classifier maps them to [n_class] logits;
    with width multiplier 1.0 and the default arguments [last_channel] is
    1280, the features before pooling are 7 x 7 and the logits have length
    1000. *)
Theorem C7_last_channel_and_head :
  (forall n_class input_size width_mult drop_probability total_steps
          activation act_params net,
     MnasNet.init n_class input_size width_mult drop_probability total_steps
       activation act_params = inr net ->
     (if Py.gt_one width_mult
      then x <- Py.mul_int 1280 width_mult ;; Py.int x
      else Py.ret 1280) = inr (MnasNet.last_channel net)
     /\ (exists front b rc,
           MnasNet.features net
           = front
               ++ [ Block b;
                    Seq (Conv_1x1 rc (MnasNet.last_channel net) activation
                           act_params);
                    Single (AdaptiveAvgPool2d 1) ]
           /\ Block.out_channels b = Some rc)
     /\ MnasNet.classifier net
        = [Dropout Py.f0; Linear (MnasNet.last_channel net) n_class]
     /\ forall (T W : Type) (R : Runtime T W) training (x : T) (w : W),
          MnasNet.forward training net x w
          = (y <~ MnasNet.features_forward training (MnasNet.features net) x ;;
             v <~ lift (view [-1; MnasNet.last_channel net] y) ;;
             sequential_forward training (MnasNet.classifier net) v) w)
  /\ (exists net,
        default_net = inr net
        /\ MnasNet.last_channel net = 1280
        /\ forall training (w : Z),
             MnasNet.features_forward training
               (removelast (MnasNet.features net)) image w
             = inr ([1; 1280; 7; 7], w)
             /\ MnasNet.forward training net image w = inr ([1; 1000], w)).
Proof.
  split.
  - intros n_class input_size wm dp ns a p net H.
    pose proof (net_blocks _ _ _ _ _ _ _ _ H) as Hb.
    apply net_init_inr in H.
    destruct H as (_ & _ & _ & _ & _ & Hlast & Hcls & ic0 & outs & blocks
                   & _ & Houts & Hblocks & Hfeatures).
    split; [exact Hlast | ]. split; [ | split; [exact Hcls | ]].
    + apply stage_table_outs in Houts.
      destruct Houts as (o24 & o40 & o80 & o96 & o192 & o320 & -> & _).
      change (running_channels (stage_table dp)
                [o24; o40; o80; o96; o192; o320] 16) with o320 in Hfeatures.
      pose proof (constructed_observables _ _ _ _ _ Hblocks)
        as (_ & _ & Hout & _).
      destruct (exists_last (l := blocks)) as (front & b & ->).
      { intros ->. inversion Hblocks. }
      exists ([ Seq (Conv_3x3 3 ic0 2 a p); Seq (SepConv_3x3 ic0 16 a p) ]
                ++ map Block front), b, o320.
      split.
      * rewrite Hfeatures, map_app, <- !app_assoc. reflexivity.
      * rewrite map_app in Hout.
        change (map Block.out_channels [b]) with [Block.out_channels b]
          in Hout.
        change (map Some (map bc_out (plan (stage_table dp)
                                        [o24; o40; o80; o96; o192; o320] 16)))
          with (map Some [o24; o24; o24; o40; o40; o40; o80; o80; o80;
                          o96; o96; o192; o192; o192; o192] ++ [Some o320])
          in Hout.
        apply app_inj_tail in Hout. exact (proj2 Hout).
    + intros T W R training x w. unfold MnasNet.forward, mbind.
      destruct (MnasNet.features_forward training (MnasNet.features net) x w)
        as [e | [y w1]]; [reflexivity | ].
      destruct (lift (view [-1; MnasNet.last_channel net] y) w1)
        as [e | [v w2]]; [reflexivity | ].
      destruct (sequential_forward training (MnasNet.classifier net) v w2)
        as [e | [z w3]]; reflexivity.
  - eexists. split; [vm_compute; reflexivity | ].
    split; [reflexivity | ].
    intros training w. split; destruct training; vm_compute; reflexivity.
Qed.

Lemma C7_last_channel_and_head_witness :
  exists net,
    MnasNet.init 1000 224 float_1_0029296875 (Py.PFloat Py.f0)
      default_num_steps ReLU6 inplace = inr net
    /\ (x <- Py.mul_int 1280 float_1_0029296875 ;; Py.int x)
       = inr (MnasNet.last_channel net).
Proof.
  destruct (MnasNet.init 1000 224 float_1_0029296875 (Py.PFloat Py.f0)
              default_num_steps ReLU6 inplace) as [e | net] eqn:E.
  - vm_compute in E. discriminate E.
  - exists net. split; [reflexivity | ].
    exact (proj1 (proj1 C7_last_channel_and_head _ _ _ _ _ _ _ _ E)).
Defined.

(** C7, as stated, fails: with a width multiplier of 1.0029296875 (greater
    than 1) [last_channel] is 1283, and 1280 x 1.0029296875 = 1283.75
    rounds to 1284. *)
Lemma C7_round_counterexample :
  exists net,
    MnasNet.init 1000 224 float_1_0029296875 (Py.PFloat Py.f0)
      default_num_steps ReLU6 inplace = inr net
    /\ Py.gt_one float_1_0029296875 = true
    /\ MnasNet.last_channel net = 1283
    /\ (x <- Py.mul_int 1280 float_1_0029296875 ;; Py.round x) = inr 1284
    /\ (x <- Py.mul_int 1280 float_1_0029296875 ;; Py.round_half_away x)
       = inr 1284
    /\ (x <- Py.mul_int 1280 float_1_0029296875 ;; Py.round x)
       <> inr (MnasNet.last_channel net).
Proof.
  eexists. split; [vm_compute; reflexivity | ].
  repeat split; try reflexivity.
  vm_compute. discriminate.
Qed.

(** ** The scheduled drop blocks *)

(** C8: in every constructed network, whatever [drop_prob] is given, the
    taps of the blocks of the first three stages of the table (24, 40 and
    80 output channels, nine blocks) have drop probability and stop value
    0, and the taps of the blocks of the last three stages (96, 192 and 320
    output channels, seven blocks) have the given [drop_prob]. *)
Theorem C8_drop_probability_by_stage :
  forall n_class input_size width_mult drop_probability total_steps
         activation act_params net,
  MnasNet.init n_class input_size width_mult drop_probability total_steps
    activation act_params = inr net ->
  exists o24 o40 o80 o96 o192 o320 early late,
    scaled_output width_mult 24 = inr o24
    /\ scaled_output width_mult 40 = inr o40
    /\ scaled_output width_mult 80 = inr o80
    /\ scaled_output width_mult 96 = inr o96
    /\ scaled_output width_mult 192 = inr o192
    /\ scaled_output width_mult 320 = inr o320
    /\ blocks_of (MnasNet.features net) = early ++ late
    /\ map Block.out_channels early
       = map Some [o24; o24; o24; o40; o40; o40; o80; o80; o80]
    /\ map Block.out_channels late
       = map Some [o96; o96; o192; o192; o192; o192; o320]
    /\ map Block.taps early
       = map (fun b =>
                repeat (scheduled_tap (Py.PInt 0) total_steps)
                  (if InvertedResidual.use_res_connect b then 4 else 3))
           early
    /\ map Block.taps late
       = map (fun b =>
                repeat (scheduled_tap drop_probability total_steps)
                  (if InvertedResidual.use_res_connect b then 4 else 3))
           late.
Proof.
  intros n_class input_size wm dp ns a p net H.
  apply net_blocks in H.
  destruct H as (o24 & o40 & o80 & o96 & o192 & o320 & early & late & H24
                 & H40 & H80 & H96 & H192 & H320 & Hblocks & Hearly & Hlate).
  exists o24, o40, o80, o96, o192, o320, early, late.
  pose proof (constructed_observables _ _ _ _ _ Hearly) as (_ & _ & Hoe & _).
  pose proof (constructed_observables _ _ _ _ _ Hlate) as (_ & _ & Hol & _).
  repeat split; try assumption.
  - apply (constructed_taps_uniform _ _ _ _ _ _ Hearly).
    repeat (apply Forall_cons; [reflexivity | ]). apply Forall_nil.
  - apply (constructed_taps_uniform _ _ _ _ _ _ Hlate).
    repeat (apply Forall_cons; [reflexivity | ]). apply Forall_nil.
Qed.

Lemma C8_drop_probability_by_stage_witness :
  exists net early late,
    MnasNet.init 1000 224 (Py.PFloat Py.f1) float_0_5 default_num_steps
      ReLU6 inplace = inr net
    /\ blocks_of (MnasNet.features net) = early ++ late
    /\ map Block.out_channels early
       = map Some [24; 24; 24; 40; 40; 40; 80; 80; 80]
    /\ map Block.taps early
       = map (fun b =>
                repeat (scheduled_tap (Py.PInt 0) default_num_steps)
                  (if InvertedResidual.use_res_connect b then 4 else 3))
           early
    /\ map Block.taps late
       = map (fun b =>
                repeat (scheduled_tap float_0_5 default_num_steps)
                  (if InvertedResidual.use_res_connect b then 4 else 3))
           late.
Proof.
  destruct (MnasNet.init 1000 224 (Py.PFloat Py.f1) float_0_5
              default_num_steps ReLU6 inplace) as [e | net] eqn:E.
  - vm_compute in E. discriminate E.
  - destruct (C8_drop_probability_by_stage _ _ _ _ _ _ _ _ E)
      as (o24 & o40 & o80 & o96 & o192 & o320 & early & late & H24 & H40
          & H80 & _ & _ & _ & Hblocks & Hoe & _ & Hte & Htl).
    exists net, early, late.
    vm_compute in H24, H40, H80.
    inversion H24; inversion H40; inversion H80; subst.
    repeat split; assumption.
Defined.

(** C9: every tap of every constructed block (A, B and C in [self.conv],
    and D when the block has its shortcut) is a scheduled drop block with
    start value 0, stop value the block's drop probability, the given
    number of steps and mask block size 7, whatever arguments the
    constructors are given; so are all taps of a constructed network, with
    the network's [num_steps]. *)
Theorem C9_tap_parameters :
  (forall inp oup stride expand_ratio kernel drop_probability total_steps
          activation act_params b,
     InvertedResidual.init inp oup stride expand_ratio kernel
       drop_probability total_steps activation act_params = inr b ->
     let tap :=
       {| dropblock := {| drop_prob := drop_probability; block_size := 7 |};
          start_value := Py.PFloat Py.f0;
          stop_value := drop_probability;
          nr_steps := total_steps |} in
     nth_error (InvertedResidual.conv b) 2 = Some (DropBlock tap)
     /\ nth_error (InvertedResidual.conv b) 6 = Some (DropBlock tap)
     /\ nth_error (InvertedResidual.conv b) 10 = Some (DropBlock tap)
     /\ InvertedResidual.skip_drop b
        = (if InvertedResidual.use_res_connect b then Some tap else None)
     /\ Block.taps b
        = repeat tap (if InvertedResidual.use_res_connect b then 4 else 3))
  /\ (forall n_class input_size width_mult drop_probability total_steps
             activation act_params net,
        MnasNet.init n_class input_size width_mult drop_probability
          total_steps activation act_params = inr net ->
        Forall
          (fun b =>
             Forall
               (fun d =>
                  start_value d = Py.PFloat Py.f0
                  /\ stop_value d = drop_prob (dropblock d)
                  /\ nr_steps d = MnasNet.num_steps net
                  /\ block_size (dropblock d) = 7)
               (Block.taps b))
          (blocks_of (MnasNet.features net))).
Proof.
  split.
  - intros inp oup stride t k dp ns a p b H tap.
    pose proof (init_taps _ _ _ _ _ _ _ _ _ _ H) as Htaps.
    apply init_inr in H.
    destruct H as (_ & _ & _ & He & Hd & Hp & Hc & Hs).
    rewrite Hc, He, Hd, Hp. repeat split; assumption.
  - intros n_class input_size wm dp ns a p net H.
    apply net_init_inr in H.
    destruct H as (_ & _ & _ & _ & Hns & _ & _ & ic0 & outs & blocks & _ & _
                   & Hblocks & Hfeatures).
    rewrite Hfeatures, Hns. simpl.
    rewrite blocks_of_app, blocks_of_map. simpl. rewrite app_nil_r.
    eapply constructed_taps_scheduled. eassumption.
Qed.

Lemma C9_tap_parameters_witness :
  exists b,
    InvertedResidual.init 24 24 1 3 3 float_0_5 default_num_steps ReLU6
      inplace = inr b
    /\ Block.taps b = repeat (scheduled_tap float_0_5 default_num_steps) 4.
Proof.
  eexists. split; [reflexivity | ].
  apply (proj1 C9_tap_parameters 24 24 1 3 3 float_0_5 default_num_steps
           ReLU6 inplace _ eq_refl).
Defined.

(** ** The classifier *)

(** C10: in every constructed network the dropout of the classifier has
    rate 0.0; on a runtime where a dropout of rate 0.0 returns its input in
    either mode, the classifier is the linear layer alone, and the output
    of the network is the linear layer applied to the flattened pooled
    features, in training mode as well. *)
Theorem C10_classifier_dropout_is_identity :
  forall n_class input_size width_mult drop_probability total_steps
         activation act_params net,
  MnasNet.init n_class input_size width_mult drop_probability total_steps
    activation act_params = inr net ->
  MnasNet.classifier net
  = [Dropout (S754_zero false); Linear (MnasNet.last_channel net) n_class]
  /\ forall (T W : Type) (R : Runtime T W),
       (forall training (x : T) (w : W),
          call training (Dropout (S754_zero false)) x w = inr (x, w)) ->
       forall training (x : T) (w : W),
         sequential_forward training (MnasNet.classifier net) x w
         = call training (Linear (MnasNet.last_channel net) n_class) x w
         /\ MnasNet.forward training net x w
            = (y <~ MnasNet.features_forward training (MnasNet.features net)
                      x ;;
               v <~ lift (view [-1; MnasNet.last_channel net] y) ;;
               call training (Linear (MnasNet.last_channel net) n_class) v)
                w.
Proof.
  intros n_class input_size wm dp ns a p net H.
  apply net_init_inr in H.
  destruct H as (_ & _ & _ & _ & _ & _ & Hcls & _).
  split; [exact Hcls | ].
  intros T W R Hdropout training.
  assert (Hseq : forall (x : T) (w : W),
             sequential_forward training (MnasNet.classifier net) x w
             = call training (Linear (MnasNet.last_channel net) n_class) x w).
  { intros x w. rewrite Hcls. simpl. unfold mbind. rewrite Hdropout.
    destruct (call training (Linear (MnasNet.last_channel net) n_class) x w)
      as [e | [y w1]]; reflexivity. }
  intros x w. split; [apply Hseq | ].
  unfold MnasNet.forward, mbind.
  destruct (MnasNet.features_forward training (MnasNet.features net) x w)
    as [e | [y w1]]; [reflexivity | ].
  destruct (lift (view [-1; MnasNet.last_channel net] y) w1)
    as [e | [v w2]]; [reflexivity | ].
  rewrite Hseq.
  destruct (call training (Linear (MnasNet.last_channel net) n_class) v w2)
    as [e | [z w3]]; reflexivity.
Qed.

Lemma C10_classifier_dropout_is_identity_witness :
  exists net,
    default_net = inr net
    /\ sequential_forward true (MnasNet.classifier net) [1; 1280] 0
       = call true (Linear 1280 1000) [1; 1280] 0.
Proof.
  destruct default_net as [e | net] eqn:E.
  - vm_compute in E. discriminate E.
  - exists net. split; [reflexivity | ].
    pose proof (C10_classifier_dropout_is_identity _ _ _ _ _ _ _ _ E)
      as [_ Hrun].
    assert (Hlast : MnasNet.last_channel net = 1280)
      by (vm_compute in E; inversion E; reflexivity).
    rewrite <- Hlast.
    apply (Hrun (list Z) Z Shape.runtime).
    intros training x w. reflexivity.
Defined.

(** ** The step counter *)




(** ** Exceptions of the scaling [int(c * width_mult)] *)

Lemma shr_1_nonneg mrs : 0 <= shr_m mrs -> 0 <= shr_m (shr_1 mrs).
Proof.
  destruct mrs as [m r s]. destruct m as [| p | p]; simpl; intro H;
    try lia; destruct p; simpl; lia.
Qed.

Lemma iter_shr_1_nonneg p :
  forall mrs, 0 <= shr_m mrs -> 0 <= shr_m (iter_pos shr_1 p mrs).
Proof.
  induction p as [p IH | p IH | ]; intros mrs H; simpl.
  - apply IH, IH, shr_1_nonneg, H.
  - apply IH, IH, H.
  - apply shr_1_nonneg, H.
Qed.

Lemma shr_fexp_nonneg m e l :
  0 <= m -> 0 <= shr_m (fst (shr_fexp Py.prec Py.emax m e l)).
Proof.
  intro H. unfold shr_fexp, shr.
  assert (H0 : 0 <= shr_m (shr_record_of_loc m l))
    by (destruct l as [| []]; exact H).
  destruct (fexp Py.prec Py.emax (Zdigits2 m + e) - e); simpl;
    [exact H0 | apply iter_shr_1_nonneg; exact H0 | exact H0].
Qed.

Lemma round_nearest_even_nonneg m l : 0 <= m -> 0 <= round_nearest_even m l.
Proof.
  intro H. destruct l as [| []]; simpl; try lia.
  destruct (Z.even m); lia.
Qed.

(** Rounding a non-negative mantissa never gives a NaN. *)
Lemma binary_round_aux_not_nan s m e l :
  0 <= m -> binary_round_aux Py.prec Py.emax s m e l <> S754_nan.
Proof.
  intro H. unfold binary_round_aux.
  pose proof (shr_fexp_nonneg m e l H) as H1.
  destruct (shr_fexp Py.prec Py.emax m e l) as [mrs1 e1]. simpl in H1.
  pose proof (shr_fexp_nonneg _ e1 loc_Exact
                (round_nearest_even_nonneg _ (loc_of_shr_record mrs1) H1))
    as H2.
  destruct (shr_fexp Py.prec Py.emax
              (round_nearest_even (shr_m mrs1) (loc_of_shr_record mrs1)) e1
              loc_Exact) as [mrs2 e2]. simpl in H2.
  destruct (shr_m mrs2) as [| p | p]; [discriminate | | lia].
  destruct (e2 <=? Py.emax - Py.prec); discriminate.
Qed.

(** The product of a finite non-zero float and [f] is a NaN only when [f]
    is. *)
Lemma mul_finite_nan s m e f :
  SFmul Py.prec Py.emax (S754_finite s m e) f = S754_nan -> f = S754_nan.
Proof.
  destruct f as [sf | sf | | sf mf ef]; simpl; intro H;
    try discriminate; [reflexivity | ].
  exfalso. revert H. apply binary_round_aux_not_nan. lia.
Qed.

Lemma scaled_output_value_error c s m e width_mult :
  Py.float_of_int c = inr (S754_finite s m e) ->
  (scaled_output width_mult c = inl Py.ValueError
   <-> width_mult = Py.PFloat S754_nan).
Proof.
  intro Hc. unfold scaled_output, Py.mul_int.
  destruct width_mult as [z | f].
  - split; discriminate.
  - rewrite Hc.
    unfold Py.bind, Py.ret, Py.raise, Py.int, Py.int_of_float. split.
    + intro H.
      destruct (SFmul Py.prec Py.emax (S754_finite s m e) f) eqn:Hmul;
        try discriminate H.
      apply mul_finite_nan in Hmul. congruence.
    + intro H. inversion H. reflexivity.
Qed.

Lemma scaled_constants_finite c :
  In c [32; 1280; 24; 40; 80; 96; 192; 320] ->
  exists s m e, Py.float_of_int c = inr (S754_finite s m e).
Proof.
  simpl. intro Hc.
  repeat (destruct Hc as [<- | Hc]; [vm_compute; eauto | ]).
  contradiction.
Qed.

(** X1: for the integers [c] that the constructor of the network scales
    (32, 1280 and the output channels of the table), [int(c * width_mult)]
    raises [ValueError] exactly when the width multiplier is a NaN; with
    an input size divisible by 32 the constructor raises [ValueError] on a
    NaN and [OverflowError] on an infinite width multiplier, at its first
    scaling. *)
Theorem X1_nan_and_infinite_width :
  (forall width_mult c,
     In c [32; 1280; 24; 40; 80; 96; 192; 320] ->
     ((x <- Py.mul_int c width_mult ;; Py.int x) = inl Py.ValueError
      <-> width_mult = Py.PFloat S754_nan))
  /\ (forall n_class input_size drop_probability total_steps activation
             act_params,
        input_size mod 32 = 0 ->
        MnasNet.init n_class input_size (Py.PFloat S754_nan)
          drop_probability total_steps activation act_params
        = inl Py.ValueError
        /\ forall s,
             MnasNet.init n_class input_size (Py.PFloat (S754_infinity s))
               drop_probability total_steps activation act_params
             = inl Py.OverflowError).
Proof.
  split.
  - intros wm c Hin.
    destruct (scaled_constants_finite _ Hin) as (s & m & e & Hfin).
    apply (scaled_output_value_error _ _ _ _ _ Hfin).
  - intros n_class input_size dp ns a p Hsize. unfold MnasNet.init.
    apply Z.eqb_eq in Hsize. rewrite Hsize.
    split; [reflexivity | ]. intro s. destruct s; reflexivity.
Qed.

Lemma X1_nan_and_infinite_width_witness :
  MnasNet.init 1000 224 (Py.PFloat (S754_infinity false)) (Py.PFloat Py.f0)
    default_num_steps ReLU6 inplace = inl Py.OverflowError.
Proof.
  apply (proj2 X1_nan_and_infinite_width 1000 224 (Py.PFloat Py.f0)
           default_num_steps ReLU6 inplace).
  reflexivity.
Defined.

(** X3: in a network constructed with an integer width multiplier [z],
    the scalings are exact: the output channels of the blocks are the
    channels of the table times [z], and [last_channel] is [1280 * z] when
    [z > 1] and 1280 otherwise. *)
Theorem X3_integer_width :
  forall n_class input_size z drop_probability total_steps activation
         act_params net,
  MnasNet.init n_class input_size (Py.PInt z) drop_probability total_steps
    activation act_params = inr net ->
  MnasNet.last_channel net = (if 1 <? z then 1280 * z else 1280)
  /\ map Block.out_channels (blocks_of (MnasNet.features net))
     = map Some
         (map (fun c => c * z)
            [24; 24; 24; 40; 40; 40; 80; 80; 80; 96; 96;
             192; 192; 192; 192; 320]).
Proof.
  intros n_class input_size z dp ns a p net Hnet.
  pose proof (net_blocks _ _ _ _ _ _ _ _ Hnet)
    as (o24 & o40 & o80 & o96 & o192 & o320 & early & late & H24 & H40 & H80
        & H96 & H192 & H320 & Hblocks & Hearly & Hlate).
  apply net_init_inr in Hnet.
  destruct Hnet as (_ & _ & _ & _ & _ & Hlast & _).
  split.
  - unfold last_channel_width in Hlast. simpl in Hlast.
    destruct (1 <? z); inversion Hlast; reflexivity.
  - apply constructed_observables in Hearly, Hlate.
    destruct Hearly as (_ & _ & Hoe & _). destruct Hlate as (_ & _ & Hol & _).
    inversion H24; inversion H40; inversion H80; inversion H96;
      inversion H192; inversion H320; subst.
    rewrite Hblocks, map_app, Hoe, Hol. reflexivity.
Qed.

Lemma X3_integer_width_witness :
  exists net,
    MnasNet.init 1000 224 (Py.PInt 2) (Py.PFloat Py.f0) default_num_steps
      ReLU6 inplace = inr net
    /\ MnasNet.last_channel net = 2560.
Proof.
  destruct (MnasNet.init 1000 224 (Py.PInt 2) (Py.PFloat Py.f0)
              default_num_steps ReLU6 inplace) as [e | net] eqn:E.
  - vm_compute in E. discriminate E.
  - exists net. split; [reflexivity | ].
    exact (proj1 (X3_integer_width _ _ _ _ _ _ _ _ E)).
Defined.

(** ** More on the loop that builds the blocks *)

Lemma for_each_app {A S : Type} (l1 l2 : list A)
    (body : S -> A -> Py.result S) :
  forall s,
  for_each (l1 ++ l2) body s
  = (s' <- for_each l1 body s ;; for_each l2 body s').
Proof.
  induction l1 as [| a l1 IH]; intro s; simpl; [reflexivity | ].
  destruct (body s a) as [e | s1]; simpl; [reflexivity | apply IH].
Qed.

Lemma later_configs_shortcuts j m oc s t k dp :
  map (fun cfg => (bc_stride cfg =? 1) && (bc_in cfg =? bc_out cfg))
    (loop_configs (map Z.of_nat (seq (S j) m)) oc oc s t k dp)
  = repeat true m.
Proof.
  revert j. induction m as [| m IH]; intro j; simpl; [reflexivity | ].
  rewrite IH, Z.eqb_refl. reflexivity.
Qed.

Lemma stage_configs_shortcuts ic oc row :
  map (fun cfg => (bc_stride cfg =? 1) && (bc_in cfg =? bc_out cfg))
    (stage_configs ic oc row)
  = stage_shortcuts ic oc row.
Proof.
  unfold stage_configs, stage_shortcuts.
  destruct (Z.to_nat (row_n row)) as [| m] eqn:E.
  - unfold range. rewrite E. reflexivity.
  - rewrite (range_succ _ _ E). simpl.
    rewrite later_configs_shortcuts. reflexivity.
Qed.

Lemma plan_shortcuts rows :
  forall outs ic,
  map (fun cfg => (bc_stride cfg =? 1) && (bc_in cfg =? bc_out cfg))
    (plan rows outs ic)
  = shortcut_pattern rows outs ic.
Proof.
  induction rows as [| row rows IH]; intros [| oc outs] ic; simpl; auto.
  rewrite map_app, stage_configs_shortcuts, IH. reflexivity.
Qed.

Lemma constructed_shortcuts ns a p cfgs blocks :
  Forall2 (fun cfg b => construct_block ns a p cfg = inr b) cfgs blocks ->
  map InvertedResidual.use_res_connect blocks
  = map (fun cfg => (bc_stride cfg =? 1) && (bc_in cfg =? bc_out cfg)) cfgs.
Proof.
  induction 1 as [| cfg b cfgs blocks Hb Hrest IH]; simpl; [reflexivity | ].
  unfold construct_block in Hb. apply init_inr in Hb.
  destruct Hb as (_ & _ & Hflag & _). rewrite Hflag, IH. reflexivity.
Qed.

Lemma stage_configs_length ic oc row :
  length (stage_configs ic oc row) = Z.to_nat (row_n row).
Proof.
  rewrite <- (length_map bc_out). unfold stage_configs.
  rewrite loop_configs_out, repeat_length. apply range_length.
Qed.

Lemma plan_length rows :
  forall outs ic,
  length outs = length rows ->
  length (plan rows outs ic) = block_count rows.
Proof.
  induction rows as [| row rows IH]; intros [| oc outs] ic Hlen;
    simpl in *; try discriminate; [reflexivity | ].
  rewrite length_app, stage_configs_length, IH by lia. reflexivity.
Qed.

(** X4: in the block sequence the generator builds for any table, every
    block of a stage after the first has the residual connection, and the
    first block of a stage has it exactly when the stage's stride is 1 and
    the scaled output channels of the stage equal the channels it
    receives. *)
Theorem X4_residual_connections :
  forall rows width_mult total_steps activation act_params fs ic fs' ic',
  MnasNet.build_blocks rows width_mult total_steps activation act_params
    (fs, ic) = inr (fs', ic') ->
  exists outs blocks,
    fs' = fs ++ map Block blocks
    /\ Forall2 (fun row oc => scaled_output width_mult (row_c row) = inr oc)
         rows outs
    /\ map InvertedResidual.use_res_connect blocks
       = shortcut_pattern rows outs ic.
Proof.
  intros rows w ns a p fs ic fs' ic' H.
  apply build_blocks_inr in H.
  destruct H as (outs & blocks & Houts & Hblocks & Hfs & _).
  exists outs, blocks. repeat split; try assumption.
  rewrite (constructed_shortcuts _ _ _ _ _ Hblocks). apply plan_shortcuts.
Qed.

Lemma X4_residual_connections_witness :
  exists fs' ic' blocks,
    MnasNet.build_blocks (stage_table (Py.PFloat Py.f0)) (Py.PFloat Py.f1)
      default_num_steps ReLU6 inplace ([], 16) = inr (fs', ic')
    /\ fs' = map Block blocks
    /\ map InvertedResidual.use_res_connect blocks
       = [false; true; true; false; true; true; false; true; true;
          false; true; false; true; true; true; false].
Proof.
  destruct (MnasNet.build_blocks (stage_table (Py.PFloat Py.f0))
              (Py.PFloat Py.f1) default_num_steps ReLU6 inplace ([], 16))
    as [e | [fs' ic']] eqn:E.
  - vm_compute in E. discriminate E.
  - destruct (X4_residual_connections _ _ _ _ _ _ _ _ _ E)
      as (outs & blocks & Hfs & Houts & Hs).
    exists fs', ic', blocks. repeat split; try assumption.
    rewrite Hs. clear - Houts.
    repeat match goal with
           | H : Forall2 _ (stage_table _) _ |- _ =>
               unfold stage_table in H
           | H : Forall2 _ (_ :: _) _ |- _ =>
               inversion H; subst; clear H
           | H : Forall2 _ [] _ |- _ => inversion H; subst; clear H
           | H : scaled_output _ _ = inr _ |- _ =>
               vm_compute in H; inversion H; subst; clear H
           end.
    reflexivity.
Defined.

(** X5: the generator builds as many blocks as the repeat counts of the
    table add up to, a count of zero or less adding none; a stage with such
    a count, once its output channels are scaled, leaves the features and
    the running channels as they are, whatever its stride is. *)
Theorem X5_block_count_and_empty_stage :
  (forall rows width_mult total_steps activation act_params fs ic fs' ic',
     MnasNet.build_blocks rows width_mult total_steps activation act_params
       (fs, ic) = inr (fs', ic') ->
     exists blocks,
       fs' = fs ++ map Block blocks /\ length blocks = block_count rows)
  /\ (forall row width_mult total_steps activation act_params st oc,
        row_n row <= 0 ->
        scaled_output width_mult (row_c row) = inr oc ->
        MnasNet.stage_body width_mult total_steps activation act_params st
          row = inr st).
Proof.
  split.
  - intros rows w ns a p fs ic fs' ic' H.
    apply build_blocks_inr in H.
    destruct H as (outs & blocks & Houts & Hblocks & Hfs & _).
    exists blocks. split; [exact Hfs | ].
    rewrite <- (Forall2_length Hblocks). apply plan_length.
    symmetry. exact (Forall2_length Houts).
  - intros [[[[[t c] n] s] k] dp] w ns a p st oc Hn Hoc.
    simpl in Hn, Hoc. unfold MnasNet.stage_body.
    unfold scaled_output in Hoc. rewrite Hoc. simpl.
    unfold range. replace (Z.to_nat n) with O by lia. reflexivity.
Qed.

Lemma X5_block_count_and_empty_stage_witness :
  MnasNet.stage_body (Py.PFloat Py.f1) default_num_steps ReLU6 inplace
    ([], 16) (6, 96, 0, 7, 3, Py.PInt 0) = inr ([], 16).
Proof.
  apply (proj2 X5_block_count_and_empty_stage (6, 96, 0, 7, 3, Py.PInt 0)
           (Py.PFloat Py.f1) default_num_steps ReLU6 inplace ([], 16) 96).
  - simpl. lia.
  - reflexivity.
Defined.

(** X6: when the rows before it have been built, a row with a positive
    repeat count whose stride is neither 1 nor 2, once its output channels
    are scaled, makes the generator raise the assertion error of the block
    constructor, whatever follows it in the table. *)
Theorem X6_invalid_stride_in_table :
  forall good row rest oc width_mult total_steps activation act_params
         st st1,
  MnasNet.build_blocks good width_mult total_steps activation act_params st
    = inr st1 ->
  scaled_output width_mult (row_c row) = inr oc ->
  0 < row_n row ->
  ~ valid_stride (row_s row) ->
  MnasNet.build_blocks (good ++ row :: rest) width_mult total_steps
    activation act_params st = inl Py.AssertionError.
Proof.
  intros good row rest oc w ns a p st [fs1 ic1] Hst1 Hoc Hn Hs.
  unfold MnasNet.build_blocks in *. rewrite for_each_app, Hst1. simpl.
  destruct row as [[[[[t c] n] s] k] dp]. simpl in Hoc, Hn, Hs.
  unfold MnasNet.stage_body at 1. unfold scaled_output in Hoc.
  rewrite Hoc. simpl.
  destruct (Z.to_nat n) as [| m] eqn:E; [lia | ].
  rewrite (range_succ _ _ E). simpl.
  rewrite (init_raises ic1 oc s t k dp ns a p Hs). reflexivity.
Qed.

Lemma X6_invalid_stride_in_table_witness :
  MnasNet.build_blocks
    ([(3, 24, 3, 2, 3, Py.PInt 0)]
       ++ (3, 40, 1, 3, 5, Py.PInt 0) :: [(6, 80, 3, 2, 5, Py.PInt 0)])
    (Py.PFloat Py.f1) default_num_steps ReLU6 inplace ([], 16)
  = inl Py.AssertionError.
Proof.
  destruct (MnasNet.build_blocks [(3, 24, 3, 2, 3, Py.PInt 0)]
              (Py.PFloat Py.f1) default_num_steps ReLU6 inplace ([], 16))
    as [e | st1] eqn:E.
  - vm_compute in E. discriminate E.
  - apply (X6_invalid_stride_in_table [(3, 24, 3, 2, 3, Py.PInt 0)]
             (3, 40, 1, 3, 5, Py.PInt 0) [(6, 80, 3, 2, 5, Py.PInt 0)]
             40 _ _ _ _ _ st1 E).
    + reflexivity.
    + simpl. lia.
    + unfold valid_stride. simpl. intros [H | H]; discriminate H.
Defined.

(** ** Exceptions of a forward pass *)

Section Raises.
Context {T W : Type} {R : Runtime T W}.
Variable P : Py.exn -> Prop.
Hypothesis call_raises :
  forall training l (x : T) (w : W) e, call training l x w = inl e -> P e.
Hypothesis add_raises : forall (x y : T) e, add x y = inl e -> P e.
Hypothesis view_raises :
  forall size (x : T) e, view size x = inl e -> P e.

Lemma sequential_forward_raises training (l : Sequential) :
  forall (x : T) (w : W) e,
  sequential_forward training l x w = inl e -> P e.
Proof.
  induction l as [| m l IH]; intros x w e H; simpl in H.
  - discriminate H.
  - unfold mbind in H.
    destruct (call training m x w) as [e1 | [y w1]] eqn:Hcall.
    + inversion H; subst. eapply call_raises; eassumption.
    + eapply IH; eassumption.
Qed.

Lemma block_forward_raises training (b : InvertedResidual.t) (x : T) (w : W)
    e :
  has_skip_drop b ->
  InvertedResidual.forward training b x w = inl e -> P e.
Proof.
  unfold has_skip_drop, InvertedResidual.forward. intro Hskip.
  destruct (InvertedResidual.use_res_connect b).
  - destruct (InvertedResidual.skip_drop b) as [d | ];
      [ | exfalso; apply Hskip; reflexivity].
    unfold mbind, lift.
    destruct (sequential_forward training (InvertedResidual.conv b) x w)
      as [e1 | [y w1]] eqn:Hconv.
    + intro H. inversion H; subst.
      eapply sequential_forward_raises; eassumption.
    + destruct (add x y) as [e1 | s] eqn:Hadd.
      * intro H. inversion H; subst. eapply add_raises; eassumption.
      * apply call_raises.
  - apply sequential_forward_raises.
Qed.

Lemma features_forward_raises training (l : list Child) :
  Forall child_has_skip_drop l ->
  forall (x : T) (w : W) e,
  MnasNet.features_forward training l x w = inl e -> P e.
Proof.
  induction 1 as [| c l Hc Hl IH]; intros x w e H; simpl in H.
  - discriminate H.
  - unfold mbind in H.
    destruct (MnasNet.child_forward training c x w) as [e1 | [y w1]]
      eqn:Hchild.
    + inversion H; subst. destruct c as [s | b | m]; simpl in Hchild.
      * eapply sequential_forward_raises; eassumption.
      * eapply block_forward_raises; eassumption.
      * eapply call_raises; eassumption.
    + eapply IH; eassumption.
Qed.

Lemma forward_raises training (net : MnasNet.t) (x : T) (w : W) e :
  Forall child_has_skip_drop (MnasNet.features net) ->
  MnasNet.forward training net x w = inl e -> P e.
Proof.
  intro Hnet. unfold MnasNet.forward, mbind, lift.
  destruct (MnasNet.features_forward training (MnasNet.features net) x w)
    as [e1 | [y w1]] eqn:Hfeatures.
  - intro H. inversion H; subst.
    eapply features_forward_raises; eassumption.
  - destruct (view [-1; MnasNet.last_channel net] y) as [e1 | v] eqn:Hview.
    + intro H. inversion H; subst. eapply view_raises; eassumption.
    + destruct (sequential_forward training (MnasNet.classifier net) v w1)
        as [e1 | [z w2]] eqn:Hcls.
      * intro H. inversion H; subst.
        eapply sequential_forward_raises; eassumption.
      * discriminate.
Qed.
End Raises.

Lemma constructed_have_skip_drop ns a p cfgs blocks :
  Forall2 (fun cfg b => construct_block ns a p cfg = inr b) cfgs blocks ->
  Forall has_skip_drop blocks.
Proof.
  induction 1 as [| cfg b cfgs blocks Hb Hrest IH]; constructor;
    [ | exact IH].
  unfold construct_block in Hb. apply init_inr in Hb.
  destruct Hb as (_ & _ & _ & _ & _ & _ & _ & Hskip).
  intro Hflag. rewrite Hskip, Hflag. discriminate.
Qed.

Lemma net_children_have_skip_drop n_class input_size width_mult
    drop_probability total_steps activation act_params net :
  MnasNet.init n_class input_size width_mult drop_probability total_steps
    activation act_params = inr net ->
  Forall child_has_skip_drop (MnasNet.features net).
Proof.
  intro H. apply net_init_inr in H.
  destruct H as (_ & _ & _ & _ & _ & _ & _ & ic0 & outs & blocks & _ & _
                 & Hblocks & Hfeatures).
  rewrite Hfeatures.
  apply Forall_app. split; [repeat constructor | ].
  apply Forall_app. split; [ | repeat constructor].
  apply constructed_have_skip_drop in Hblocks.
  apply Forall_forall. intros c Hc. apply in_map_iff in Hc.
  destruct Hc as (b & <- & Hb). simpl.
  eapply Forall_forall in Hblocks; eassumption.
Qed.

Lemma shape_apply_raises l x e :
  Shape.apply l x = inl e -> e = Py.RuntimeError.
Proof.
  unfold Shape.apply, Py.ret, Py.raise.
  repeat match goal with
         | |- context [match ?c with _ => _ end] => destruct c
         end;
    intro H; inversion H; reflexivity.
Qed.

Lemma shape_reshape_raises size x e :
  Shape.reshape size x = inl e -> e = Py.RuntimeError.
Proof.
  unfold Shape.reshape, Py.ret, Py.raise.
  repeat match goal with
         | |- context [match ?c with _ => _ end] => destruct c
         end;
    intro H; inversion H; reflexivity.
Qed.

(** X7: a forward pass of a constructed network raises only what the
    operators of the runtime raise: an exception of the pass satisfies
    every property that the exceptions of the module calls, of the addition
    and of the reshape satisfy.  In particular [self.skip_drop] is never
    looked up in a block that has not set it. *)
Theorem X7_forward_raises_only_runtime_errors :
  forall n_class input_size width_mult drop_probability total_steps
         activation act_params net,
  MnasNet.init n_class input_size width_mult drop_probability total_steps
    activation act_params = inr net ->
  forall (T W : Type) (R : Runtime T W) (P : Py.exn -> Prop),
    (forall training l (x : T) (w : W) e,
       call training l x w = inl e -> P e) ->
    (forall (x y : T) e, add x y = inl e -> P e) ->
    (forall size (x : T) e, view size x = inl e -> P e) ->
    forall training (x : T) (w : W) e,
      MnasNet.forward training net x w = inl e -> P e.
Proof.
  intros n_class input_size wm dp ns a p net Hnet T W R P Hcall Hadd Hview
         training x w e.
  apply forward_raises; try assumption.
  eapply net_children_have_skip_drop. eassumption.
Qed.

Lemma X7_forward_raises_only_runtime_errors_witness :
  exists net,
    default_net = inr net
    /\ forall e,
         MnasNet.forward true net [1; 4; 224; 224] 0 = inl e ->
         e = Py.RuntimeError.
Proof.
  destruct default_net as [e0 | net] eqn:E.
  - vm_compute in E. discriminate E.
  - exists net. split; [reflexivity | ].
    intro e.
    apply (X7_forward_raises_only_runtime_errors _ _ _ _ _ _ _ _ E (list Z)
             Z Shape.runtime (fun e => e = Py.RuntimeError)).
    + intros training l x w e1. simpl.
      destruct (Shape.apply l x) as [e2 | y] eqn:Happly; [ | discriminate].
      intro H. inversion H; subst. eapply shape_apply_raises. eassumption.
    + intros x y e1. simpl. unfold Shape.plus.
      destruct (list_eq_dec Z.eq_dec x y); intro H; inversion H; reflexivity.
    + intros size x e1. simpl. apply shape_reshape_raises.
Defined.

(** ** The framing layers *)

Lemma flat_map_blocks_taps bs :
  flat_map child_drop_blocks (map Block bs) = flat_map Block.taps bs.
Proof.
  induction bs as [| b bs IH]; simpl; [ | rewrite IH]; reflexivity.
Qed.

(** X8: in every constructed network the scheduled drop blocks are those
    of the inverted residual blocks: the two framing convolutions at the
    start, the last 1x1 convolution, the pooling and the classifier have
    none, whatever drop probability is given. *)
Theorem X8_only_blocks_are_regularized :
  forall n_class input_size width_mult drop_probability total_steps
         activation act_params net,
  MnasNet.init n_class input_size width_mult drop_probability total_steps
    activation act_params = inr net ->
  flat_map child_drop_blocks (MnasNet.features net)
  = flat_map Block.taps (blocks_of (MnasNet.features net))
  /\ drop_blocks (MnasNet.classifier net) = [].
Proof.
  intros n_class input_size wm dp ns a p net H.
  apply net_init_inr in H.
  destruct H as (_ & _ & _ & _ & _ & _ & Hcls & ic0 & outs & blocks & _ & _
                 & _ & Hfeatures).
  rewrite Hcls, Hfeatures. split; [ | reflexivity].
  rewrite !flat_map_app, !blocks_of_app, blocks_of_map, flat_map_blocks_taps.
  simpl. rewrite !app_nil_r. reflexivity.
Qed.

Lemma X8_only_blocks_are_regularized_witness :
  exists net,
    MnasNet.init 1000 224 (Py.PFloat Py.f1) float_0_5 default_num_steps
      ReLU6 inplace = inr net
    /\ drop_blocks (MnasNet.classifier net) = [].
Proof.
  destruct (MnasNet.init 1000 224 (Py.PFloat Py.f1) float_0_5
              default_num_steps ReLU6 inplace) as [e | net] eqn:E.
  - vm_compute in E. discriminate E.
  - exists net. split; [reflexivity | ].
    exact (proj2 (X8_only_blocks_are_regularized _ _ _ _ _ _ _ _ E)).
Defined.

(** X9: whatever the width multiplier, a constructed network starts with
    a 3x3 convolution of stride 2 from 3 channels to [int(32 * width_mult)]
    and a separable convolution from there to 16 channels, not scaled, and
    its first inverted residual block takes 16 channels with stride 2. *)
Theorem X9_stem_hands_over_16_channels :
  forall n_class input_size width_mult drop_probability total_steps
         activation act_params net,
  MnasNet.init n_class input_size width_mult drop_probability total_steps
    activation act_params = inr net ->
  exists ic0 b,
    (x <- Py.mul_int 32 width_mult ;; Py.int x) = inr ic0
    /\ firstn 3 (MnasNet.features net)
       = [ Seq (Conv_3x3 3 ic0 2 activation act_params);
           Seq (SepConv_3x3 ic0 16 activation act_params);
           Block b ]
    /\ Block.in_channels b = Some 16
    /\ InvertedResidual.stride b = 2.
Proof.
  intros n_class input_size wm dp ns a p net H.
  apply net_init_inr in H.
  destruct H as (_ & _ & _ & _ & _ & _ & _ & ic0 & outs & blocks & Hic0
                 & Houts & Hblocks & Hfeatures).
  apply stage_table_outs in Houts.
  destruct Houts as (o24 & o40 & o80 & o96 & o192 & o320 & -> & _).
  change (plan (stage_table dp) [o24; o40; o80; o96; o192; o320] 16)
    with ({| bc_in := 16; bc_out := o24; bc_stride := 2; bc_expand := 3;
             bc_kernel := 3; bc_drop := Py.PInt 0 |}
          :: tl (plan (stage_table dp) [o24; o40; o80; o96; o192; o320] 16))
    in Hblocks.
  inversion Hblocks as [| cfg b cfgs bs Hb Hrest]; subst.
  exists ic0, b. split; [exact Hic0 | ].
  rewrite Hfeatures. split; [reflexivity | ].
  unfold construct_block in Hb. simpl in Hb.
  pose proof (init_channels _ _ _ _ _ _ _ _ _ _ Hb) as [Hin _].
  apply init_inr in Hb. destruct Hb as (_ & Hstride & _).
  split; assumption.
Qed.

Lemma X9_stem_hands_over_16_channels_witness :
  exists net b,
    MnasNet.init 1000 224 float_0_5 (Py.PFloat Py.f0) default_num_steps
      ReLU6 inplace = inr net
    /\ nth_error (MnasNet.features net) 2 = Some (Block b)
    /\ Block.in_channels b = Some 16.
Proof.
  destruct (MnasNet.init 1000 224 float_0_5 (Py.PFloat Py.f0)
              default_num_steps ReLU6 inplace) as [e | net] eqn:E.
  - vm_compute in E. discriminate E.
  - destruct (X9_stem_hands_over_16_channels _ _ _ _ _ _ _ _ E)
      as (ic0 & b & _ & Hfirst & Hin & _).
    exists net, b. split; [reflexivity | ]. split; [ | exact Hin].
    destruct (MnasNet.features net) as [| c1 [| c2 [| c3 l]]];
      try discriminate Hfirst.
    inversion Hfirst. reflexivity.
Defined.

(** X10: the input size is only asserted on, and the number of classes
    only reaches the linear layer: two input sizes divisible by 32 give the
    same result, and two networks constructed with the same arguments but
    for the number of classes have the same features and the same
    [last_channel], the classifier of each ending in a linear layer to its
    own number of classes. *)
Theorem X10_input_size_and_classes_do_not_shape_the_body :
  (forall n_class size1 size2 width_mult drop_probability total_steps
          activation act_params,
     size1 mod 32 = 0 ->
     size2 mod 32 = 0 ->
     MnasNet.init n_class size1 width_mult drop_probability total_steps
       activation act_params
     = MnasNet.init n_class size2 width_mult drop_probability total_steps
         activation act_params)
  /\ (forall classes1 classes2 input_size width_mult drop_probability
             total_steps activation act_params net1 net2,
        MnasNet.init classes1 input_size width_mult drop_probability
          total_steps activation act_params = inr net1 ->
        MnasNet.init classes2 input_size width_mult drop_probability
          total_steps activation act_params = inr net2 ->
        MnasNet.features net2 = MnasNet.features net1
        /\ MnasNet.last_channel net2 = MnasNet.last_channel net1
        /\ MnasNet.classifier net1
           = [Dropout Py.f0; Linear (MnasNet.last_channel net1) classes1]
        /\ MnasNet.classifier net2
           = [Dropout Py.f0; Linear (MnasNet.last_channel net1) classes2]).
Proof.
  split.
  - intros n_class size1 size2 wm dp ns a p H1 H2. unfold MnasNet.init.
    apply Z.eqb_eq in H1, H2. rewrite H1, H2. reflexivity.
  - intros c1 c2 input_size wm dp ns a p net1 net2. unfold MnasNet.init.
    destruct (negb (input_size mod 32 =? 0)); [discriminate | ].
    destruct (p0 <- Py.mul_int 32 wm ;; Py.int p0) as [e | ic0];
      [discriminate | ].
    destruct (if Py.gt_one wm
              then p0 <- Py.mul_int 1280 wm ;; Py.int p0
              else Py.ret 1280) as [e | lc]; [discriminate | ].
    simpl.
    destruct (MnasNet.build_blocks _ _ _ _ _ _) as [e | [fs rc]];
      [discriminate | ].
    simpl. intros H1 H2. inversion H1; inversion H2; subst. simpl.
    repeat split.
Qed.

Lemma X10_input_size_and_classes_do_not_shape_the_body_witness :
  MnasNet.init 1000 224 (Py.PFloat Py.f1) (Py.PFloat Py.f0)
    default_num_steps ReLU6 inplace
  = MnasNet.init 1000 256 (Py.PFloat Py.f1) (Py.PFloat Py.f0)
      default_num_steps ReLU6 inplace.
Proof.
  apply (proj1 X10_input_size_and_classes_do_not_shape_the_body);
    reflexivity.
Defined.
